(** * WQC-ETF-Replication: [data_extraction_processing.py]

    A shallow embedding of the three entry points of the module
    ([retrieve_historical_returns], [construct_key_metrics],
    [backtest_resample]) together with the parts of Python, [datetime],
    [dateutil] and pandas they rely on, followed by the properties of the
    specification that are settled against it.

    Conventions of the embedding:
    - a Python exception is a value of [exn]; a computation that may raise
      has type [result A];
    - an f-string is a list of fragments ([frag]): literal text and
      formatted values; a plain string literal is a single [Lit];
    - a pandas [Timestamp] of a month-end index is a calendar date (the
      time of day is always midnight there); comparison and subtraction go
      through the proleptic Gregorian ordinal, as [datetime] does;
    - a float is [NaN], an infinity or a rational; rounding is not
      modelled, and the range limits of [datetime] and [Timestamp] years
      are not modelled either;
    - a Python value ([pyval]) is a JSON value or a float: numbers of
      other types ([Decimal], [Fraction], numpy integers, subclasses of
      [int]) are not among them;
    - a text is a string of bytes and a digit is an ASCII digit: the
      other Unicode decimal digits that [int] and [strptime] take are not
      modelled;
    - the price source is given: every download of one ticker has rows,
      so that its earliest date has a year, and the combined download
      has an [Adj Close] group, so that the subscript of step 8 does not
      raise. *)

From Stdlib Require Import ZArith QArith Qreals Reals Lia Lra Ascii String List.
From stdpp Require Import base option list sorting gmap strings.

Set Warnings "-register-all".

Local Open Scope Z_scope.

(** ** Python values and exceptions *)

Module Py.

Inductive float := NaN | PInf | NInf | Fin (q : Q).

Inductive pyval :=
| PyNone
| PyBool (b : bool)
| PyInt (n : Z)
| PyFloat (f : float)
| PyStr (s : string)
| PyList (l : list pyval)
| PyDict (d : gmap string pyval).

(** One piece of an f-string. *)
Inductive frag :=
| Lit (s : string)
| FmtVal (v : pyval)
| FmtType (v : pyval).

Definition message := list frag.

Inductive exn :=
| ValueError (msg : message)
| KeyError (msg : message)
| TypeError (msg : message)
| IndexError (msg : message)
| AttributeError (msg : message)
| RuntimeError (msg : message).

Inductive result (A : Type) :=
| Ok (a : A)
| Raise (e : exn).
Arguments Ok {A} a.
Arguments Raise {A} e.

Definition bind {A B : Type} (m : result A) (k : A -> result B) : result B :=
  match m with
  | Ok a => k a
  | Raise e => Raise e
  end.

#[global] Instance result_ret : MRet result := fun A a => Ok a.
#[global] Instance result_bind : MBind result := fun A B k m => bind m k.

Definition is_ValueError {A : Type} (r : result A) : bool :=
  match r with
  | Raise (ValueError _) => true
  | _ => false
  end.

Definition type_name (v : pyval) : string :=
  match v with
  | PyNone => "NoneType"
  | PyBool _ => "bool"
  | PyInt _ => "int"
  | PyFloat _ => "float"
  | PyStr _ => "str"
  | PyList _ => "list"
  | PyDict _ => "dict"
  end.

(** [type(v) != int] *)
Definition type_is_not_int (v : pyval) : bool :=
  match v with
  | PyInt _ => false
  | _ => true
  end.

Definition float_le_int (f : float) (k : Z) : bool :=
  match f with
  | NaN => false
  | PInf => false
  | NInf => true
  | Fin q => Qle_bool q (inject_Z k)
  end.

(** [v <= k] for an int [k]: defined on numbers, a [TypeError] on every
    other type. *)
Definition py_le_int (v : pyval) (k : Z) : result bool :=
  match v with
  | PyInt n => Ok (n <=? k)
  | PyBool b => Ok (Z.b2z b <=? k)
  | PyFloat f => Ok (float_le_int f k)
  | _ => Raise (TypeError [Lit "'<=' not supported between instances of '";
                           Lit (type_name v); Lit "' and 'int'"])
  end.

Definition index_error : exn := IndexError [Lit "index out of bounds"].

(** [l[i]] with Python's negative indices. *)
Definition py_getitem {A : Type} (l : list A) (i : Z) : result A :=
  let j := if i <? 0 then i + Z.of_nat (length l) else i in
  if j <? 0 then Raise index_error
  else match l !! Z.to_nat j with
       | Some x => Ok x
       | None => Raise index_error
       end.

(** The scan of [min(l, key=key)]: a later element replaces the current
    best only when its key is strictly smaller. *)
Fixpoint min_scan {A : Type} (key : A -> Z) (best : A) (l : list A) : A :=
  match l with
  | [] => best
  | x :: l' => if key x <? key best then min_scan key x l' else min_scan key best l'
  end.

Definition py_min_key {A : Type} (key : A -> Z) (l : list A) : result A :=
  match l with
  | [] => Raise (ValueError [Lit "min() arg is an empty sequence"])
  | x :: l' => Ok (min_scan key x l')
  end.

Fixpoint max_scan (best : Z) (l : list Z) : Z :=
  match l with
  | [] => best
  | x :: l' => if best <? x then max_scan x l' else max_scan best l'
  end.

Definition py_max (l : list Z) : result Z :=
  match l with
  | [] => Raise (ValueError [Lit "max() arg is an empty sequence"])
  | x :: l' => Ok (max_scan x l')
  end.

Definition py_min (l : list Z) : result Z := py_min_key (fun x => x) l.

(** [s in t] for two strings: [s] occurs somewhere in [t]. *)
Fixpoint occurs (s t : string) : bool :=
  String.prefix s t ||
  match t with
  | EmptyString => false
  | String _ t' => occurs s t'
  end.

(** [s[:n]], [s[n:]] and [s[:-1]] *)
Definition str_take (n : nat) (s : string) : string := String.substring 0 n s.
Definition str_drop (n : nat) (s : string) : string :=
  String.substring n (String.length s - n) s.
Definition str_init (s : string) : string := str_take (String.length s - 1) s.

Definition digit (c : Ascii.ascii) : option Z :=
  let n := Z.of_N (Ascii.N_of_ascii c) in
  if (48 <=? n) && (n <=? 57) then Some (n - 48) else None.

Fixpoint digits_value (acc : Z) (s : string) : option Z :=
  match s with
  | EmptyString => Some acc
  | String c s' =>
      match digit c with
      | Some d => digits_value (10 * acc + d) s'
      | None => None
      end
  end.

(** [int(s)] on the texts this module applies it to: a run of decimal
    digits converts, anything holding another character is a
    [ValueError]. (Signs, blanks and underscores, which [int] also
    accepts, never reach it in a convertible position here.) *)
Definition py_int (s : string) : result Z :=
  match s with
  | EmptyString => Raise (ValueError [Lit "invalid literal for int() with base 10"])
  | _ => match digits_value 0 s with
         | Some n => Ok n
         | None => Raise (ValueError [Lit "invalid literal for int() with base 10"])
         end
  end.

(** [key in v] *)
Definition py_contains (v : pyval) (key : string) : result bool :=
  match v with
  | PyDict d => Ok (bool_decide (is_Some (d !! key)))
  | PyList l => Ok (existsb (fun x => match x with
                                      | PyStr s => String.eqb s key
                                      | _ => false
                                      end) l)
  | PyStr s => Ok (occurs key s)
  | _ => Raise (TypeError [Lit "argument of type '"; Lit (type_name v);
                           Lit "' is not iterable"])
  end.

(** [v[key]] for a string key *)
Definition py_getitem_str (v : pyval) (key : string) : result pyval :=
  match v with
  | PyDict d => match d !! key with
                | Some x => Ok x
                | None => Raise (KeyError [Lit key])
                end
  | _ => Raise (TypeError [Lit "indices must be integers"])
  end.

(** [v.items()] *)
Definition py_items (v : pyval) : result (list (string * pyval)) :=
  match v with
  | PyDict d => Ok (map_to_list d)
  | _ => Raise (AttributeError [Lit "object has no attribute 'items'"])
  end.

End Py.
Import Py.

(** ** Calendar dates: [datetime], [calendar.monthrange], [relativedelta] *)

Module Calendar.

Record Timestamp := mkTimestamp { year : Z; month : Z; day : Z }.

Definition is_leap (y : Z) : bool :=
  (y mod 4 =? 0) && (negb (y mod 100 =? 0) || (y mod 400 =? 0)).

(** [calendar.monthrange(y, m)[1]] *)
Definition days_in_month (y m : Z) : Z :=
  if m =? 2 then (if is_leap y then 29 else 28)
  else if (m =? 4) || (m =? 6) || (m =? 9) || (m =? 11) then 30
  else 31.

(** [datetime._days_before_year] *)
Definition days_before_year (y : Z) : Z :=
  let p := y - 1 in
  p * 365 + p / 4 - p / 100 + p / 400.

(** [datetime._days_before_month] *)
Definition days_before_month (y m : Z) : Z :=
  let common :=
    if m <=? 1 then 0 else if m =? 2 then 31 else if m =? 3 then 59
    else if m =? 4 then 90 else if m =? 5 then 120 else if m =? 6 then 151
    else if m =? 7 then 181 else if m =? 8 then 212 else if m =? 9 then 243
    else if m =? 10 then 273 else if m =? 11 then 304 else 334 in
  common + (if (2 <? m) && is_leap y then 1 else 0).

(** [date.toordinal]: 1 for 0001-01-01. *)
Definition toordinal (t : Timestamp) : Z :=
  days_before_year (year t) + days_before_month (year t) (month t) + day t.

(** Timestamps compare by the instant they denote. *)
Definition ts_eqb (a b : Timestamp) : bool := toordinal a =? toordinal b.
Definition ts_ltb (a b : Timestamp) : bool := toordinal a <? toordinal b.
Definition ts_leb (a b : Timestamp) : bool := toordinal a <=? toordinal b.

(** [abs(x - end_date)] as a number of days. *)
Definition abs_diff (x end_date : Timestamp) : Z :=
  Z.abs (toordinal x - toordinal end_date).

(** The normalised fields of a [relativedelta] that matter here. *)
Record relativedelta := mkDelta { years : Z; months : Z }.

(** [relativedelta(months=n)]: the constructor's [_fix] folds every
    twelve months into a year, keeping the sign. *)
Definition relativedelta_months (n : Z) : relativedelta :=
  if 11 <? Z.abs n
  then let s := Z.sgn n in
       {| years := ((n * s) / 12) * s; months := ((n * s) mod 12) * s |}
  else {| years := 0; months := n |}.

(** [dt + delta]: shift year and month, then clamp the day to the length
    of the month reached. *)
Definition add_relativedelta (dt : Timestamp) (delta : relativedelta) : Timestamp :=
  let y0 := year dt + years delta in
  let m0 := month dt + months delta in
  let '(y, m) :=
    if months delta =? 0 then (y0, month dt)
    else if 12 <? m0 then (y0 + 1, m0 - 12)
    else if m0 <? 1 then (y0 - 1, m0 + 12)
    else (y0, m0) in
  {| year := y; month := m; day := Z.min (days_in_month y m) (day dt) |}.

(** A date that closes its month, and the step from one month to the
    next: the index that [resample('ME')] builds. *)
Definition is_month_end (t : Timestamp) : bool :=
  (1 <=? month t) && (month t <=? 12) && (day t =? days_in_month (year t) (month t)).

Definition is_next_month (a b : Timestamp) : bool :=
  if month a =? 12 then (year b =? year a + 1) && (month b =? 1)
  else (year b =? year a) && (month b =? month a + 1).

Fixpoint consecutive_months (idx : list Timestamp) : bool :=
  match idx with
  | a :: ((b :: _) as rest) => is_next_month a b && consecutive_months rest
  | _ => true
  end.

Definition consecutive_month_ends (idx : list Timestamp) : bool :=
  forallb is_month_end idx && consecutive_months idx.

Fixpoint ascending (idx : list Timestamp) : bool :=
  match idx with
  | a :: ((b :: _) as rest) => ts_leb a b && ascending rest
  | _ => true
  end.

Fixpoint descending (idx : list Timestamp) : bool :=
  match idx with
  | a :: ((b :: _) as rest) => ts_leb b a && descending rest
  | _ => true
  end.

End Calendar.
Import Calendar.

(** ** Date-indexed tables: the pandas [DataFrame] operations in use *)

Module Frame.

(** A cell of a returns table handed to the metrics: a float; a string
    that [float()] converts (to [f]), which makes the column one of dtype
    [object]; or some other object, which [float()] rejects. *)
Inductive cell := Num (f : float) | NumStr (f : float) | Obj (s : string).

(** Rows in index order; each row carries its index label. *)
Record DataFrame (A : Type) := mkFrame {
  columns : list string;
  rows : list (Timestamp * list A)
}.
Arguments mkFrame {A} columns rows.
Arguments columns {A} d.
Arguments rows {A} d.

Definition index {A : Type} (df : DataFrame A) : list Timestamp := map fst (rows df).

(** [df.shape] *)
Definition shape {A : Type} (df : DataFrame A) : nat * nat :=
  (length (rows df), length (columns df)).

(** The [j]-th column, top to bottom. *)
Definition column {A : Type} (dflt : A) (df : DataFrame A) (j : nat) : list A :=
  map (fun r => default dflt (snd r !! j)) (rows df).

(** Positions of a label in an index, counted from [i]. *)
Fixpoint positions_from (i : nat) (label : Timestamp) (idx : list Timestamp) : list nat :=
  match idx with
  | [] => []
  | x :: xs => (if ts_eqb x label then [i] else []) ++ positions_from (S i) label xs
  end.

(** What [Index.get_loc] returns: a position, a slice for a contiguous
    run of equal labels, or a boolean mask for a scattered one. *)
Inductive loc := LocInt (i : nat) | LocSlice (start stop : nat) | LocMask.

Definition get_loc (idx : list Timestamp) (label : Timestamp) : result loc :=
  match positions_from 0 label idx with
  | [] => Raise (KeyError [Lit "label not in index"])
  | [p] => Ok (LocInt p)
  | p :: ps =>
      let q := List.last ps p in
      if (q + 1 - p =? length (p :: ps))%nat then Ok (LocSlice p (S q)) else Ok LocMask
  end.

Inductive side := Left | Right.

Definition count_where (f : Timestamp -> bool) (idx : list Timestamp) : nat :=
  length (List.filter f idx).

(** [Index._searchsorted_monotonic], reached only for a label that is
    absent from the index. *)
Definition searchsorted_monotonic (idx : list Timestamp) (label : Timestamp) (s : side)
  : result nat :=
  if ascending idx then
    Ok (match s with
        | Left => count_where (fun x => ts_ltb x label) idx
        | Right => count_where (fun x => ts_leb x label) idx
        end)
  else if descending idx then
    Ok (match s with
        | Left => count_where (fun x => ts_ltb label x) idx
        | Right => count_where (fun x => ts_leb label x) idx
        end)
  else Raise (KeyError [Lit "label not in index"]).

(** [Index.get_slice_bound] *)
Definition get_slice_bound (idx : list Timestamp) (label : Timestamp) (s : side)
  : result nat :=
  match get_loc idx label with
  | Raise _ => searchsorted_monotonic idx label s
  | Ok LocMask => Raise (KeyError [Lit "Cannot get slice bound for non-unique label"])
  | Ok (LocSlice a b) => Ok (match s with Left => a | Right => b end)
  | Ok (LocInt i) => Ok (match s with Left => i | Right => S i end)
  end.

(** [l[a:b]] *)
Definition py_slice {A : Type} (l : list A) (a b : nat) : list A :=
  take (b - a) (drop a l).

(** [df.loc[first:last]]: label slicing, both ends included. *)
Definition loc_slice {A : Type} (df : DataFrame A) (first last : Timestamp)
  : result (DataFrame A) :=
  a ← get_slice_bound (index df) first Left;
  b ← get_slice_bound (index df) last Right;
  mret (mkFrame (columns df) (py_slice (rows df) a b)).

End Frame.
Import Frame.

(** ** Sample statistics: [DataFrame.cov] and [DataFrame.std] *)

Module Stats.

Definition is_num (c : cell) : bool :=
  match c with
  | Num _ => true
  | NumStr _ | Obj _ => false
  end.

(** What [to_numpy(dtype=float)] can convert. *)
Definition converts (c : cell) : bool :=
  match c with
  | Num _ | NumStr _ => true
  | Obj _ => false
  end.

Definition fval (c : cell) : float :=
  match c with
  | Num f | NumStr f => f
  | Obj _ => NaN
  end.

(** Every cell is a float: the columns have a numeric dtype. *)
Definition all_numeric (df : DataFrame cell) : bool :=
  forallb (fun r => forallb is_num (snd r)) (rows df).

Definition all_convertible (df : DataFrame cell) : bool :=
  forallb (fun r => forallb converts (snd r)) (rows df).

Definition is_nan (f : float) : bool :=
  match f with
  | NaN => true
  | _ => false
  end.

(** [np.isfinite] *)
Definition is_finite (f : float) : bool :=
  match f with
  | Fin _ => true
  | _ => false
  end.

(** The defined rationals of a list of floats, when none is infinite. *)
Fixpoint finite (l : list float) : option (list Q) :=
  match l with
  | [] => Some []
  | Fin q :: l' => match finite l' with Some qs => Some (q :: qs) | None => None end
  | _ :: _ => None
  end.

Definition dropna (l : list float) : list float :=
  List.filter (fun f => negb (is_nan f)) l.

Definition Qsum (l : list Q) : Q := foldr Qplus 0%Q l.

Definition Qlen {A : Type} (l : list A) : Q := inject_Z (Z.of_nat (length l)).

Definition mean (l : list Q) : Q := (Qsum l / Qlen l)%Q.

(** Sum of products of deviations over [N - 1]. *)
Definition sample_cov (xs ys : list Q) : Q :=
  (Qsum (zip_with (fun x y => (x - mean xs) * (y - mean ys)) xs ys) / (Qlen xs - 1))%Q.

Definition sample_var (xs : list Q) : Q := sample_cov xs xs.

(** A volatility: [None] stands for NaN. *)
Definition vol := option R.

(** [Series.std()]: NaN cells are skipped; fewer than two observations,
    or an infinite one, give NaN. *)
Definition std_column (l : list float) : vol :=
  match finite (dropna l) with
  | Some qs => if (2 <=? length qs)%nat then Some (sqrt (Q2R (sample_var qs))) else None
  | None => None
  end.

(** [np.cov] on two columns of a matrix without NaN: all rows count, and
    an infinite cell in either column makes the entry NaN. *)
Definition np_cov (xs ys : list float) : float :=
  match finite xs, finite ys with
  | Some qx, Some qy =>
      if (2 <=? length qx)%nat then Fin (sample_cov qx qy) else NaN
  | _, _ => NaN
  end.

(** [libalgos.nancorr(mat, cov=True)] on two columns: only the rows where
    both cells are finite count ([mask = np.isfinite(mat)]). *)
Definition nancorr (xs ys : list float) : float :=
  let both := List.filter (fun p => is_finite (fst p) && is_finite (snd p)) (zip xs ys) in
  match finite (map fst both), finite (map snd both) with
  | Some qx, Some qy =>
      if (2 <=? length qx)%nat then Fin (sample_cov qx qy) else NaN
  | _, _ => NaN
  end.

(** One entry of [DataFrame.cov]: [np.cov] if [notna(mat).all()],
    [nancorr] otherwise. *)
Definition cov_columns (masked : bool) (xs ys : list float) : float :=
  if masked then nancorr xs ys else np_cov xs ys.

Definition float_column (df : DataFrame cell) (j : nat) : list float :=
  map fval (column (Num NaN) df j).

(** [not notna(mat).all()]: some cell of the matrix is NaN. *)
Definition has_nan (df : DataFrame cell) : bool :=
  existsb (fun j => existsb is_nan (float_column df j)) (seq 0 (length (columns df))).

(** [df.std()]: one value per column; raises on a column of dtype
    [object], whatever its strings hold. *)
Definition pandas_std (df : DataFrame cell) : result (list (string * vol)) :=
  if all_numeric df
  then Ok (imap (fun j name => (name, std_column (float_column df j))) (columns df))
  else Raise (TypeError [Lit "could not convert string to float"]).

(** [df.cov()]: the matrix row by row; raises on a cell that
    [to_numpy(dtype=float)] cannot convert. *)
Definition pandas_cov (df : DataFrame cell) : result (list (list float)) :=
  if all_convertible df
  then Ok (imap (fun i _ =>
                   imap (fun j _ => cov_columns (has_nan df)
                                      (float_column df i) (float_column df j))
                        (columns df))
                (columns df))
  else Raise (ValueError [Lit "could not convert string to float"]).

End Stats.
Import Stats.

(** ** [construct_key_metrics] *)

(** The three-element list the function returns. *)
Record RiskMetrics := mkMetrics {
  metrics_returns : DataFrame cell;
  metrics_volatilities : list (string * vol);
  metrics_covariance : list (list float)
}.

(** The two messages are plain string literals in the source (no [f]
    prefix), so the braces are part of the text. *)
Definition covariance_error_text : string :=
  "Error calculating covariance matrix. Returns matrix of shape: {returns.shape}".

Definition volatility_error_text : string :=
  "Error calculating volatilities. Returns matrix of shape: {returns.shape}".

Section Engine.

(** The two pandas reductions; any exception they raise is caught by the
    bare [except] clauses. *)
Variable cov_method : DataFrame cell -> result (list (list float)).
Variable std_method : DataFrame cell -> result (list (string * vol)).

Definition construct_key_metrics_via (returns : DataFrame cell) : result RiskMetrics :=
  match cov_method returns with
  | Raise _ => Raise (RuntimeError [Lit covariance_error_text])
  | Ok covariance_matrix =>
      match std_method returns with
      | Raise _ => Raise (RuntimeError [Lit volatility_error_text])
      | Ok volatilities => Ok (mkMetrics returns volatilities covariance_matrix)
      end
  end.

End Engine.

Definition construct_key_metrics : DataFrame cell -> result RiskMetrics :=
  construct_key_metrics_via pandas_cov pandas_std.

(** ** [backtest_resample] *)

Definition duration_error (duration_months : pyval) : exn :=
  ValueError [Lit "Duration must be a positive integer. Currently of value ";
              FmtVal duration_months; Lit " and type "; FmtType duration_months].

Definition exceeds_error : exn :=
  ValueError [Lit "Duration exceeds the length of the returns DataFrame."].

(** Step 1 of the function: [duration_months <= 0 or type(duration_months) != int].
    The comparison is evaluated first and may itself raise. On success the
    value is an [int], which the rest of the function uses. *)
Definition check_duration (duration_months : pyval) : result Z :=
  nonpositive ← py_le_int duration_months 0;
  if nonpositive || type_is_not_int duration_months
  then Raise (duration_error duration_months)
  else match duration_months with
       | PyInt n => Ok n
       | _ => Raise (duration_error duration_months)
       end.

Definition backtest_resample (returns : DataFrame cell) (duration_months : pyval)
  : result RiskMetrics :=
  n ← check_duration duration_months;
  start_date ← py_getitem (index returns) 0;
  let full_dates := index returns in
  let end_date := add_relativedelta start_date (relativedelta_months n) in
  last_date ← py_getitem (index returns) (-1);
  if ts_ltb last_date end_date && negb (n =? Z.of_nat (length full_dates))
  then Raise exceeds_error
  else
    closest_date ← py_min_key (fun x => abs_diff x end_date) full_dates;
    durated_returns ← loc_slice returns start_date closest_date;
    construct_key_metrics durated_returns.

(** ** [datetime.strptime(s, "%Y-%m-%d")] *)

Module Strptime.

Definition is_dash (c : Ascii.ascii) : bool := Ascii.eqb c "-"%char.
Definition is_space (c : Ascii.ascii) : bool := Ascii.eqb c " "%char.

(** [%Y] is the regular expression [\d\d\d\d]. *)
Definition parse_Y (s : string) : option (Z * string) :=
  match s with
  | String a (String b (String c (String d rest))) =>
      match digit a, digit b, digit c, digit d with
      | Some x, Some y, Some z, Some w => Some (1000 * x + 100 * y + 10 * z + w, rest)
      | _, _, _, _ => None
      end
  | _ => None
  end.

(** [%m] is [1[0-2]|0[1-9]|[1-9]], and a ['-'] has to follow: the
    two-digit alternatives are tried first, the single digit is what
    backtracking falls back to. *)
Definition parse_m_dash (s : string) : option (Z * string) :=
  let two :=
    match s with
    | String a (String b (String c rest)) =>
        match digit a, digit b with
        | Some x, Some y =>
            if is_dash c &&
               (((x =? 1) && (y <=? 2)) || ((x =? 0) && (1 <=? y)))
            then Some (10 * x + y, rest) else None
        | _, _ => None
        end
    | _ => None
    end in
  match two with
  | Some r => Some r
  | None =>
      match s with
      | String a (String c rest) =>
          match digit a with
          | Some x => if is_dash c && (1 <=? x) then Some (x, rest) else None
          | None => None
          end
      | _ => None
      end
  end.

(** [%d] is [3[0-1]|[1-2]\d|0[1-9]|[1-9]| [1-9]] and ends the pattern: the
    first alternative that matches is taken, whatever follows. *)
Definition parse_d (s : string) : option (Z * string) :=
  let two :=
    match s with
    | String a (String b rest) =>
        match digit a, digit b with
        | Some x, Some y =>
            if ((x =? 3) && (y <=? 1)) || ((1 <=? x) && (x <=? 2)) || ((x =? 0) && (1 <=? y))
            then Some (10 * x + y, rest) else None
        | None, Some y =>
            if is_space a && (1 <=? y) then Some (y, rest) else None
        | _, _ => None
        end
    | _ => None
    end in
  match two with
  | Some r => Some r
  | None =>
      match s with
      | String a rest =>
          match digit a with
          | Some x => if 1 <=? x then Some (x, rest) else None
          | None => None
          end
      | _ => None
      end
  end.

(** The whole call: the pattern must match, nothing may remain
    unconverted, and the fields must name a date ([MINYEAR] is 1). *)
Definition strptime (s : string) : option Timestamp :=
  match parse_Y s with
  | Some (y, String c s1) =>
      if is_dash c then
        match parse_m_dash s1 with
        | Some (m, s2) =>
            match parse_d s2 with
            | Some (d, EmptyString) =>
                if (1 <=? y) && (d <=? days_in_month y m)
                then Some (mkTimestamp y m d) else None
            | _ => None
            end
        | None => None
        end
      else None
  | _ => None
  end.

(** Following the specification's words: the text has the shape
    [YYYY-MM-DD], four, two and two digits, and names a calendar date. *)
Definition matches_YYYY_MM_DD (s : string) : bool :=
  match s with
  | String y1 (String y2 (String y3 (String y4 (String c1
      (String m1 (String m2 (String c2 (String d1 (String d2 EmptyString))))))))) =>
      match digit y1, digit y2, digit y3, digit y4, digit m1, digit m2, digit d1, digit d2 with
      | Some a, Some b, Some c, Some d, Some e, Some f, Some g, Some h =>
          let y := 1000 * a + 100 * b + 10 * c + d in
          let m := 10 * e + f in
          let dd := 10 * g + h in
          is_dash c1 && is_dash c2 && (1 <=? y) && (1 <=? m) && (m <=? 12)
          && (1 <=? dd) && (dd <=? days_in_month y m)
      | _, _, _, _, _, _, _, _ => false
      end
  | _ => false
  end.

End Strptime.
Import Strptime.

(** ** [retrieve_historical_returns] *)

(** *** Float arithmetic of [pct_change] and [fillna] *)

Definition fdiv (a b : float) : float :=
  match a, b with
  | NaN, _ | _, NaN => NaN
  | Fin x, Fin y =>
      if Qeq_bool y 0 then
        (if Qeq_bool x 0 then NaN else if Qle_bool 0 x then PInf else NInf)
      else Fin (x / y)
  | Fin _, _ => Fin 0
  | PInf, Fin y => if Qle_bool 0 y then PInf else NInf
  | NInf, Fin y => if Qle_bool 0 y then NInf else PInf
  | _, _ => NaN
  end.

Definition fsub1 (a : float) : float :=
  match a with
  | Fin x => Fin (x - 1)
  | other => other
  end.

Definition prev_cell (prev : list float) (j : nat) : float := default NaN (prev !! j).

(** [df.ffill()]: a NaN cell takes the last defined value above it. *)
Fixpoint ffill_rows (prev : list float) (rs : list (Timestamp * list float))
  : list (Timestamp * list float) :=
  match rs with
  | [] => []
  | (t, r) :: rest =>
      let r' := imap (fun j x => if is_nan x then prev_cell prev j else x) r in
      (t, r') :: ffill_rows r' rest
  end.

(** [df / df.shift(1) - 1]: the row above the first one is all NaN. *)
Fixpoint pct_rows (prev : list float) (rs : list (Timestamp * list float))
  : list (Timestamp * list float) :=
  match rs with
  | [] => []
  | (t, r) :: rest =>
      (t, imap (fun j x => fsub1 (fdiv x (prev_cell prev j))) r) :: pct_rows r rest
  end.

(** [df.pct_change()]; [pad] tells whether this pandas forward-fills
    first (the default [fill_method] up to pandas 2). *)
Definition pct_change (pad : bool) (df : DataFrame float) : DataFrame float :=
  let filled := if pad then ffill_rows [] (rows df) else rows df in
  mkFrame (columns df) (pct_rows [] filled).

(** [df.fillna(0)] *)
Definition fillna0 (df : DataFrame float) : DataFrame float :=
  mkFrame (columns df)
          (map (fun r => (fst r, map (fun x => if is_nan x then Fin 0 else x) (snd r)))
               (rows df)).

(** *** Validation of the parameters (steps 4 to 6) *)

Definition required_keys : list string :=
  ["sample_time_step"; "total_sample_period"; "sample_period_end"].

Definition accepted_interval_values : list string :=
  ["1d"; "5d"; "1mo"; "3mo"; "6mo"; "1y"; "2y"; "5y"; "10y"].

Definition date_error : exn :=
  ValueError [Lit "Invalid date format in sample_period_end, expected YYYY-MM-DD."].

(** A plain literal in the source: [{key}] is not substituted. *)
Definition interval_error : exn :=
  ValueError [Lit "Invalid date format in {key}, accepted values include: '1d', '5d', '1mo', '3mo', '6mo', '1y', '2y', '5y', '10y'."].

Fixpoint check_required (keys : list string) (data_params : pyval) : result unit :=
  match keys with
  | [] => Ok tt
  | key :: rest =>
      present ← py_contains data_params key;
      if negb present
      then Raise (KeyError [Lit "Missing '"; Lit key; Lit "' in dataParameters."])
      else check_required rest data_params
  end.

(** [strptime] wants a [str]; the [ValueError] of a text that does not
    parse is caught and raised again with the module's own message. *)
Definition check_date (sample_period_end : pyval) : result unit :=
  match sample_period_end with
  | PyStr s => match strptime s with
               | Some _ => Ok tt
               | None => Raise date_error
               end
  | other => Raise (TypeError [Lit "strptime() argument 1 must be str, not ";
                               Lit (type_name other)])
  end.

(** [value not in accepted_interval_values] *)
Definition not_accepted (value : pyval) : bool :=
  match value with
  | PyStr s => negb (existsb (String.eqb s) accepted_interval_values)
  | _ => true
  end.

Fixpoint check_intervals (items : list (string * pyval)) : result unit :=
  match items with
  | [] => Ok tt
  | (key, value) :: rest =>
      if negb (String.eqb key "sample_period_end") && not_accepted value
      then Raise interval_error
      else check_intervals rest
  end.

Definition validate_parameters (data_params : pyval) : result unit :=
  _ ← check_required required_keys data_params;
  sample_period_end ← py_getitem_str data_params "sample_period_end";
  _ ← check_date sample_period_end;
  items ← py_items data_params;
  check_intervals items.

(** *** Availability of the sample period (step 7) *)

Definition as_str (v : pyval) : result string :=
  match v with
  | PyStr s => Ok s
  | other => Raise (TypeError [Lit "'"; Lit (type_name other);
                               Lit "' object is not subscriptable as text"])
  end.

(** [f'{int(end[:4]) - years}{end[4:]}'] *)
Definition period_start (sample_period_end total_sample_period : string) : result string :=
  total_sample_period_years ← py_int (str_init total_sample_period);
  end_year ← py_int (str_take 4 sample_period_end);
  Ok (pretty.pretty (end_year - total_sample_period_years) +:+ str_drop 4 sample_period_end).

Definition unavailable_error (bad_etfs : list pyval) : exn :=
  ValueError [Lit "Historical data during specified sample period does not exist for ";
              FmtVal (PyList bad_etfs); Lit "."].

(** The loop [for i in range(len(etf_start_years))] that fills [bad_etfs]. *)
Fixpoint collect_bad (tickers : list pyval) (etf_start_years : list Z)
    (sample_period_start : string) (range : list nat) (bad_etfs : list pyval)
  : result (list pyval) :=
  match range with
  | [] => Ok bad_etfs
  | i :: rest =>
      y ← py_getitem etf_start_years (Z.of_nat i);
      requested ← py_int (str_take 4 sample_period_start);
      if negb (y =? requested)
      then t ← py_getitem tickers (Z.of_nat i);
           collect_bad tickers etf_start_years sample_period_start rest (bad_etfs ++ [t])
      else collect_bad tickers etf_start_years sample_period_start rest bad_etfs
  end.

(** [max(ys) != min(ys) and max(ys) != int(start[:4])], then the loop
    and the [raise]. *)
Definition check_availability (tickers : list pyval) (etf_start_years : list Z)
    (sample_period_start : string) : result unit :=
  hi ← py_max etf_start_years;
  lo ← py_min etf_start_years;
  differ ←
    (if negb (hi =? lo)
     then requested ← py_int (str_take 4 sample_period_start);
          Ok (negb (hi =? requested))
     else Ok false);
  if (differ : bool)
  then bad_etfs ← collect_bad tickers etf_start_years sample_period_start
                    (seq 0 (length etf_start_years)) [];
       Raise (unavailable_error bad_etfs)
  else Ok tt.

(** *** Returns from prices (steps 9 and 10) *)

Section Returns.

(** [resample('ME').last()] is pandas' own; [pad] is the pandas default
    for [pct_change]. *)
Variable resample_ME_last : DataFrame float -> DataFrame float.
Variable pad : bool.

Definition returns_from_prices (data : DataFrame float) : DataFrame float :=
  let returns := pct_change pad (resample_ME_last data) in
  fillna0 returns.

End Returns.

(** *** The whole function, from the parsed JSON document on *)

Section Builder.

(** The price-fetch collaborator: the year of the earliest row of
    [yf.download(ticker, start, end)], and the ["Adj Close"] table of the
    combined download. Both are taken as given: a download without rows
    and a download without an [Adj Close] group, on which the subscript
    raises [KeyError], are outside the model. *)
Variable earliest_year : pyval -> string -> string -> Z.
Variable download_adj_close : string -> string -> string -> DataFrame float.
Variable resample_ME_last : DataFrame float -> DataFrame float.
Variable pad : bool.

Definition check_schema (ETFInfo : gmap string pyval) : result (list pyval * pyval) :=
  match ETFInfo !! "tickers" with
  | Some (PyList tickers) =>
      match ETFInfo !! "dataParameters" with
      | Some data_params => Ok (tickers, data_params)
      | None => Raise (KeyError [Lit "Missing 'dataParameters' in JSON file."])
      end
  | _ => Raise (KeyError [Lit "Missing or invalid 'tickers' in JSON file."])
  end.

(** [" ".join(tickers)] *)
Fixpoint ticker_names (tickers : list pyval) : result (list string) :=
  match tickers with
  | [] => Ok []
  | PyStr s :: rest => names ← ticker_names rest; Ok (s :: names)
  | other :: _ => Raise (TypeError [Lit "sequence item: expected str instance, ";
                                    Lit (type_name other); Lit " found"])
  end.

Definition retrieve_historical_returns (ETFInfo : gmap string pyval)
  : result (DataFrame float) :=
  '(tickers, data_params) ← check_schema ETFInfo;
  _ ← validate_parameters data_params;
  sample_period_end ← py_getitem_str data_params "sample_period_end" ≫= as_str;
  total_sample_period ← py_getitem_str data_params "total_sample_period" ≫= as_str;
  sample_period_start ← period_start sample_period_end total_sample_period;
  let etf_start_years :=
    map (fun ticker => earliest_year ticker sample_period_start sample_period_end) tickers in
  _ ← check_availability tickers etf_start_years sample_period_start;
  names ← ticker_names tickers;
  let formatted_tickers := String.concat " " names in
  let data := download_adj_close formatted_tickers sample_period_start sample_period_end in
  Ok (returns_from_prices resample_ME_last pad data).

End Builder.

(** * Notions used in the statements *)

(** The function from the nearest-date selection on. *)
Definition window_metrics (returns : DataFrame cell) (start_date end_date : Timestamp)
  : result RiskMetrics :=
  closest_date ← py_min_key (fun x => abs_diff x end_date) (index returns);
  durated_returns ← loc_slice returns start_date closest_date;
  construct_key_metrics durated_returns.

(** [m] is the first element of [l] whose key is minimal. *)
Definition first_minimum {A : Type} (key : A -> Z) (l : list A) (m : A) : Prop :=
  exists pre post, l = pre ++ m :: post
    /\ (forall x, x ∈ pre -> key m < key x)
    /\ (forall x, x ∈ post -> key m <= key x).

(** The order of dates, as propositions. *)
Definition date_le (a b : Timestamp) : Prop := toordinal a <= toordinal b.
Definition date_lt (a b : Timestamp) : Prop := toordinal a < toordinal b.

(** Ordinal of the day before the first day of a month. *)
Definition month_start (y m : Z) : Z := days_before_year y + days_before_month y m.

(** Months counted from year 0. *)
Definition month_number (t : Timestamp) : Z := 12 * year t + month t - 1.

(** The largest and the smallest element of a list of years. *)
Definition is_maximum (hi : Z) (l : list Z) : Prop := hi ∈ l /\ forall y, y ∈ l -> y <= hi.
Definition is_minimum (lo : Z) (l : list Z) : Prop := lo ∈ l /\ forall y, y ∈ l -> lo <= y.

(** The tickers whose earliest year is not the requested one, in order. *)
Definition differing_tickers (requested : Z) (tickers : list pyval) (ys : list Z)
  : list pyval :=
  map fst (List.filter (fun p => negb (snd p =? requested)) (zip tickers ys)).

(** What [fillna(0)] does to one cell. *)
Definition fill0 (x : float) : float := if is_nan x then Fin 0 else x.

(** A value that is one of the nine accepted texts. *)
Definition is_accepted (value : pyval) : Prop :=
  exists token, token ∈ accepted_interval_values /\ value = PyStr token.

(** Some parameter other than [sample_period_end] is not accepted. *)
Definition has_bad_interval (d : gmap string pyval) : Prop :=
  exists key value,
    key <> "sample_period_end" /\ d !! key = Some value /\ ~ is_accepted value.

(** A parameter object whose date is written without zero padding. *)
Definition unpadded_parameters : gmap string pyval :=
  <["sample_time_step" := PyStr "1mo"]>
    (<["total_sample_period" := PyStr "5y"]>
       (<["sample_period_end" := PyStr "2024-1-5"]> ∅)).

(** [str(df.shape)], the text an f-string would have put in the message. *)
Definition shape_text (s : nat * nat) : string :=
  "(" +:+ pretty.pretty (fst s) +:+ ", " +:+ pretty.pretty (snd s) +:+ ")".

(** A table with a column of dtype [object]: two rows, one column. *)
Definition object_frame : DataFrame cell :=
  mkFrame ["A"] [(mkTimestamp 2024 1 31, [Obj "n/a"]); (mkTimestamp 2024 2 29, [Obj "n/a"])].

(** A table whose cells are the strings ["0.1"] and ["0.3"]. *)
Definition text_frame : DataFrame cell :=
  mkFrame ["A"] [(mkTimestamp 2024 1 31, [NumStr (Fin (1 # 10))]);
                 (mkTimestamp 2024 2 29, [NumStr (Fin (3 # 10))])].

(** A volatility that is a non-negative real number. *)
Definition vol_nonneg (v : vol) : Prop := exists x : R, v = Some x /\ (0 <= x)%R.

(** A table with a single row. *)
Definition single_row_frame : DataFrame cell :=
  mkFrame ["A"; "B"] [(mkTimestamp 2024 1 31, [Num (Fin 0); Num (Fin 0)])].

(** Three month ends of 2024, two instruments. *)
Definition sample_returns : DataFrame cell :=
  mkFrame ["A"; "B"]
    [(mkTimestamp 2024 1 31, [Num (Fin 0); Num (Fin 0)]);
     (mkTimestamp 2024 2 29, [Num (Fin (1 # 10)); Num (Fin (2 # 10))]);
     (mkTimestamp 2024 3 31, [Num (Fin (3 # 10)); Num (Fin (-1 # 10))])].

(** Month-end prices of two instruments, one of them missing in the
    second month. *)
Definition sample_prices : DataFrame float :=
  mkFrame ["A"; "B"]
    [(mkTimestamp 2024 1 31, [Fin 100; Fin 50]);
     (mkTimestamp 2024 2 29, [Fin 110; NaN]);
     (mkTimestamp 2024 3 31, [Fin 99; Fin 55])].

(** A parameter object with an impossible date. *)
Definition bad_date_parameters : gmap string pyval :=
  <["sample_time_step" := PyStr "1mo"]>
    (<["total_sample_period" := PyStr "5y"]>
       (<["sample_period_end" := PyStr "2024-13-40"]> ∅)).

(** A whole document, and a stand-in for the price-fetch collaborator
    that serves [sample_prices] already at month ends. *)
Definition sample_document : gmap string pyval :=
  <["tickers" := PyList [PyStr "A"; PyStr "B"]]>
    (<["dataParameters" :=
         PyDict (<["sample_time_step" := PyStr "1mo"]>
                   (<["total_sample_period" := PyStr "5y"]>
                      (<["sample_period_end" := PyStr "2024-04-01"]> ∅)))]> ∅).

Definition sample_run : result (DataFrame float) :=
  retrieve_historical_returns (fun _ _ _ => 2019) (fun _ _ _ => sample_prices)
    (fun df => df) true sample_document.

(** * Notions used in the further properties *)

(** A date of the proleptic Gregorian calendar that [datetime] accepts. *)
Definition is_valid_date (t : Timestamp) : Prop :=
  1 <= year t <= 9999 /\ 1 <= month t <= 12
  /\ 1 <= day t <= days_in_month (year t) (month t).

(** The accepted period texts that end in [mo], and the others. *)
Definition month_tokens : list string := ["1mo"; "3mo"; "6mo"].
Definition unit_tokens : list string := ["1d"; "5d"; "1y"; "2y"; "5y"; "10y"].

Definition int_literal_error : exn :=
  ValueError [Lit "invalid literal for int() with base 10"].

Definition empty_max_error : exn :=
  ValueError [Lit "max() arg is an empty sequence"].

(** A document whose period is counted in months, and one without
    tickers. *)
Definition month_period_document : gmap string pyval :=
  <["tickers" := PyList [PyStr "A"; PyStr "B"]]>
    (<["dataParameters" :=
         PyDict (<["sample_time_step" := PyStr "1mo"]>
                   (<["total_sample_period" := PyStr "3mo"]>
                      (<["sample_period_end" := PyStr "2024-04-01"]> ∅)))]> ∅).

Definition no_ticker_document : gmap string pyval :=
  <["tickers" := PyList []]>
    (<["dataParameters" :=
         PyDict (<["sample_time_step" := PyStr "1mo"]>
                   (<["total_sample_period" := PyStr "5y"]>
                      (<["sample_period_end" := PyStr "2024-04-01"]> ∅)))]> ∅).

(** The parameter objects of [sample_document], [month_period_document]
    and [no_ticker_document]. *)
Definition year_period_parameters : gmap string pyval :=
  <["sample_time_step" := PyStr "1mo"]>
    (<["total_sample_period" := PyStr "5y"]>
       (<["sample_period_end" := PyStr "2024-04-01"]> ∅)).

Definition month_period_parameters : gmap string pyval :=
  <["sample_time_step" := PyStr "1mo"]>
    (<["total_sample_period" := PyStr "3mo"]>
       (<["sample_period_end" := PyStr "2024-04-01"]> ∅)).

(** A row in which both of two columns hold a finite value. *)
Definition both_defined (p : float * float) : bool :=
  is_finite (fst p) && is_finite (snd p).

(** The entry of a matrix at a row and a column. *)
Definition entry (matrix : list (list float)) (i j : nat) : option float :=
  matrix !! i ≫= fun row => row !! j.

(** Ordinal of the day before the first day of the month numbered [k]. *)
Definition month_start_at (k : Z) : Z := month_start (k / 12) (k mod 12 + 1).

(** The first required key that a parameter object lacks. *)
Definition first_missing (d : gmap string pyval) : option string :=
  List.find (fun key => negb (bool_decide (is_Some (d !! key)))) required_keys.

(** The error of step 4 for a key. *)
Definition missing_key_error (key : string) : exn :=
  KeyError [Lit "Missing '"; Lit key; Lit "' in dataParameters."].

(** [returns] is [raw] with every NaN replaced by 0, where the first
    row of [raw] is all NaN: the first row of [returns] is all 0 and no
    cell of it is NaN. *)
Definition filled_from (raw returns : DataFrame float) : Prop :=
  (forall t cells, head (rows returns) = Some (t, cells) -> Forall (fun x => x = Fin 0) cells)
  /\ (forall r, r ∈ rows returns -> Forall (fun x => is_nan x = false) (snd r))
  /\ (forall t cells, head (rows raw) = Some (t, cells) -> Forall (fun x => x = NaN) cells)
  /\ columns returns = columns raw
  /\ index returns = index raw
  /\ (forall i j t cells x,
        rows raw !! i = Some (t, cells) -> cells !! j = Some x ->
        exists cells', rows returns !! i = Some (t, cells')
                       /\ cells' !! j = Some (if is_nan x then Fin 0 else x)).







(** * Properties *)

(** ** Reading the ends of an index *)

Lemma bind_Ok {A B : Type} (a : A) (k : A -> result B) : (Ok a ≫= k) = k a.
Proof. reflexivity. Qed.

Lemma bind_Raise {A B : Type} (e : exn) (k : A -> result B) : (Raise e ≫= k) = Raise e.
Proof. reflexivity. Qed.

Lemma py_getitem_first {A : Type} (l : list A) :
  py_getitem l 0 = match head l with Some x => Ok x | None => Raise index_error end.
Proof. destruct l; reflexivity. Qed.

Lemma py_getitem_last {A : Type} (l : list A) :
  py_getitem l (-1) = match last l with Some x => Ok x | None => Raise index_error end.
Proof.
  unfold py_getitem. change (-1 <? 0) with true. cbv iota.
  destruct (decide (l = [])) as [->|Hne]; [reflexivity|].
  assert (0 < length l)%nat by (destruct l; [done | simpl; lia]).
  destruct (Z.ltb_spec (-1 + Z.of_nat (length l)) 0); [lia|].
  replace (Z.to_nat (-1 + Z.of_nat (length l))) with (pred (length l)) by lia.
  rewrite <- last_lookup. reflexivity.
Qed.

Lemma head_index_nonempty {A : Type} (df : DataFrame A) :
  rows df <> [] -> exists first last_date,
    head (index df) = Some first /\ last (index df) = Some last_date.
Proof.
  unfold index. destruct (rows df) as [|r rs] eqn:E; [done|]. intros _.
  exists (fst r). destruct (last (map fst (r :: rs))) eqn:L.
  - eauto.
  - apply last_None in L. discriminate.
Qed.

(** ** The duration check *)

Lemma check_duration_positive (n : Z) :
  0 < n -> check_duration (PyInt n) = Ok n.
Proof.
  intros Hn. unfold check_duration. cbn.
  destruct (Z.leb_spec n 0); [lia | reflexivity].
Qed.

Lemma check_duration_nonpositive (n : Z) :
  n <= 0 -> check_duration (PyInt n) = Raise (duration_error (PyInt n)).
Proof.
  intros Hn. unfold check_duration. cbn.
  destruct (Z.leb_spec n 0); [reflexivity | lia].
Qed.

Lemma check_duration_float (f : float) :
  check_duration (PyFloat f) = Raise (duration_error (PyFloat f)).
Proof. unfold check_duration. cbn. destruct (float_le_int f 0); reflexivity. Qed.

Lemma check_duration_bool (b : bool) :
  check_duration (PyBool b) = Raise (duration_error (PyBool b)).
Proof. destruct b; reflexivity. Qed.

Lemma check_duration_Ok (v : pyval) (n : Z) :
  check_duration v = Ok n <-> v = PyInt n /\ 0 < n.
Proof.
  split.
  - destruct v; cbn; try discriminate.
    + destruct (Z.b2z b <=? 0); discriminate.
    + destruct (Z.leb_spec n0 0); cbn; [discriminate|]. intros [= ->]. split; [done|lia].
    + destruct (float_le_int f 0); discriminate.
  - intros [-> Hn]. by apply check_duration_positive.
Qed.

Lemma backtest_resample_numeric_rejected (returns : DataFrame cell) (v : pyval) :
  (exists n, v = PyInt n /\ n <= 0) \/ (exists f, v = PyFloat f) \/ (exists b, v = PyBool b) ->
  backtest_resample returns v = Raise (duration_error v).
Proof.
  unfold backtest_resample.
  intros [(n & -> & Hn)|[(f & ->)|(b & ->)]].
  - by rewrite check_duration_nonpositive.
  - by rewrite check_duration_float.
  - by rewrite check_duration_bool.
Qed.

(** C7, at the failing input: a duration given as text is not a positive
    integer, yet it is not rejected with the function's [ValueError]; the
    comparison [duration_months <= 0] is evaluated before the type test
    and raises [TypeError] itself. (Non-positive ints, floats and bools
    are rejected as documented: [backtest_resample_numeric_rejected].) *)
Theorem backtest_resample_text_duration (returns : DataFrame cell) (s : string) :
  backtest_resample returns (PyStr s)
  = Raise (TypeError [Lit "'<=' not supported between instances of '";
                      Lit "str"; Lit "' and 'int'"])
  /\ is_ValueError (backtest_resample returns (PyStr s)) = false.
Proof. split; reflexivity. Qed.

(** ** What the later stages can raise *)

Lemma check_duration_raises (v : pyval) (e : exn) :
  check_duration v = Raise e -> (exists m, e = ValueError m /\ e = duration_error v) \/ (exists m, e = TypeError m).
Proof.
  destruct v; cbn; intros H; try (injection H as <-; right; eauto; fail).
  - destruct (Z.b2z b <=? 0); injection H as <-; left; eauto.
  - destruct (n <=? 0); cbn in H; [|discriminate]. injection H as <-; left; eauto.
  - destruct (float_le_int f 0); injection H as <-; left; eauto.
Qed.

Lemma construct_key_metrics_raises (df : DataFrame cell) (e : exn) :
  construct_key_metrics df = Raise e -> exists m, e = RuntimeError m.
Proof.
  unfold construct_key_metrics, construct_key_metrics_via.
  destruct (pandas_cov df); [destruct (pandas_std df)|]; intros [= <-]; eauto.
Qed.

Lemma get_slice_bound_raises (idx : list Timestamp) (label : Timestamp) (s : side) (e : exn) :
  get_slice_bound idx label s = Raise e -> exists m, e = KeyError m.
Proof.
  unfold get_slice_bound, searchsorted_monotonic.
  destruct (get_loc idx label) as [[| |]|].
  - discriminate.
  - discriminate.
  - intros [= <-]; eauto.
  - destruct (ascending idx); [discriminate|].
    destruct (descending idx); [discriminate|]. intros [= <-]; eauto.
Qed.

Lemma loc_slice_raises {A : Type} (df : DataFrame A) (a b : Timestamp) (e : exn) :
  loc_slice df a b = Raise e -> exists m, e = KeyError m.
Proof.
  unfold loc_slice.
  destruct (get_slice_bound (index df) a Left) eqn:Ha.
  - rewrite bind_Ok.
    destruct (get_slice_bound (index df) b Right) eqn:Hb.
    + discriminate.
    + rewrite bind_Raise. intros [= <-]. eapply get_slice_bound_raises; eauto.
  - rewrite bind_Raise. intros [= <-]. eapply get_slice_bound_raises; eauto.
Qed.

Lemma window_metrics_raises (returns : DataFrame cell) (a b : Timestamp) (e : exn) :
  index returns <> [] ->
  window_metrics returns a b = Raise e -> exists m, e = KeyError m \/ e = RuntimeError m.
Proof.
  unfold window_metrics. intros Hne.
  destruct (index returns) as [|x xs] eqn:E; [done|].
  cbn [py_min_key]. rewrite bind_Ok.
  destruct (loc_slice returns a _) eqn:Hs.
  - rewrite bind_Ok. intros H. apply construct_key_metrics_raises in H as [m ->]. eauto.
  - rewrite bind_Raise. intros [= <-]. apply loc_slice_raises in Hs as [m ->]. eauto.
Qed.

(** [backtest_resample] once the duration is known to be a positive int. *)
Lemma backtest_resample_unfold (returns : DataFrame cell) (d : Z) :
  0 < d ->
  backtest_resample returns (PyInt d) =
  match head (index returns), last (index returns) with
  | Some start_date, Some last_date =>
      let end_date := add_relativedelta start_date (relativedelta_months d) in
      if ts_ltb last_date end_date && negb (d =? Z.of_nat (length (index returns)))
      then Raise exceeds_error
      else window_metrics returns start_date end_date
  | _, _ => Raise index_error
  end.
Proof.
  intros Hd. unfold backtest_resample.
  rewrite check_duration_positive by done. rewrite bind_Ok.
  rewrite py_getitem_first, py_getitem_last.
  destruct (head (index returns)) as [s|] eqn:Hh.
  - rewrite bind_Ok. destruct (last (index returns)) as [l|] eqn:Hl.
    + rewrite bind_Ok. reflexivity.
    + apply last_None in Hl. rewrite Hl in Hh. discriminate.
  - reflexivity.
Qed.

(** C10: on a table without rows the function stops with [IndexError] at
    [returns.index[0]], which is none of the function's [ValueError]s; on
    a table with rows both [returns.index[0]] and [returns.index[-1]] are
    in bounds and no [IndexError] is raised at all. *)
Theorem backtest_resample_empty_table :
  (forall (cols : list string) (d : Z), 0 < d ->
     backtest_resample (mkFrame cols []) (PyInt d) = Raise index_error
     /\ is_ValueError (backtest_resample (mkFrame cols []) (PyInt d)) = false)
  /\ (forall (returns : DataFrame cell), rows returns <> [] ->
        (exists first, py_getitem (index returns) 0 = Ok first)
        /\ (exists last_date, py_getitem (index returns) (-1) = Ok last_date)
        /\ (forall (v : pyval) (m : message),
              backtest_resample returns v <> Raise (IndexError m))).
Proof.
  split.
  - intros cols d Hd. rewrite backtest_resample_unfold by done. split; reflexivity.
  - intros returns Hne.
    destruct (head_index_nonempty returns Hne) as (first & last_date & Hh & Hl).
    repeat split.
    + exists first. by rewrite py_getitem_first, Hh.
    + exists last_date. by rewrite py_getitem_last, Hl.
    + intros v m H.
      destruct (check_duration v) as [n|e] eqn:Hc.
      * apply check_duration_Ok in Hc as [-> Hn].
        rewrite backtest_resample_unfold in H by done.
        rewrite Hh, Hl in H. cbv zeta in H.
        destruct (_ && _) in H; [discriminate|].
        apply window_metrics_raises in H as [m' [H1|H1]]; [discriminate|discriminate|].
        intros E. rewrite E in Hh. discriminate.
      * unfold backtest_resample in H. rewrite Hc, bind_Raise in H.
        injection H as ->.
        apply check_duration_raises in Hc as [(m' & Hc & _)|(m' & Hc)]; discriminate.
Qed.

Lemma backtest_resample_empty_table_witness :
  backtest_resample (mkFrame ["A"] []) (PyInt 5) = Raise index_error
  /\ (exists first,
        py_getitem (index (mkFrame ["A"] [(mkTimestamp 2024 1 31, [Num (Fin 0)])])) 0
        = Ok first).
Proof.
  destruct backtest_resample_empty_table as [Hempty Hrows]. split.
  - apply (Hempty ["A"] 5). lia.
  - apply (Hrows (mkFrame ["A"] [(mkTimestamp 2024 1 31, [Num (Fin 0)])])). discriminate.
Defined.

(** C2: for a positive int duration the function raises "Duration
    exceeds the length of the returns DataFrame." exactly when the last
    index date is strictly before the first date plus [d] months and [d]
    is not the number of rows; with [d] equal to the number of rows that
    error is never raised. *)
Theorem backtest_resample_exceeds_iff (returns : DataFrame cell) (d : Z) :
  0 < d ->
  (backtest_resample returns (PyInt d) = Raise exceeds_error <->
   exists first last_date,
     head (index returns) = Some first /\ last (index returns) = Some last_date
     /\ toordinal last_date < toordinal (add_relativedelta first (relativedelta_months d))
     /\ d <> Z.of_nat (length (rows returns)))
  /\ (d = Z.of_nat (length (rows returns)) ->
      backtest_resample returns (PyInt d) <> Raise exceeds_error).
Proof.
  intros Hd.
  assert (Hlen : length (index returns) = length (rows returns))
    by (unfold index; apply length_map).
  assert (Hiff : backtest_resample returns (PyInt d) = Raise exceeds_error <->
   exists first last_date,
     head (index returns) = Some first /\ last (index returns) = Some last_date
     /\ toordinal last_date < toordinal (add_relativedelta first (relativedelta_months d))
     /\ d <> Z.of_nat (length (rows returns))).
  { rewrite backtest_resample_unfold by done. rewrite Hlen.
    destruct (head (index returns)) as [first|] eqn:Hh.
    2:{ split; [discriminate|]. intros (? & ? & ? & _). discriminate. }
    destruct (last (index returns)) as [last_date|] eqn:Hl.
    2:{ split; [discriminate|]. intros (? & ? & _ & ? & _). discriminate. }
    cbv zeta. unfold ts_ltb.
    destruct (Z.ltb_spec (toordinal last_date)
                (toordinal (add_relativedelta first (relativedelta_months d))));
      destruct (Z.eqb_spec d (Z.of_nat (length (rows returns)))); cbn [andb negb].
    - split.
      + intros Hr.
        apply window_metrics_raises in Hr as [m [H1|H1]]; [discriminate|discriminate|].
        intros E. rewrite E in Hh. discriminate.
      + intros (? & ? & _ & _ & _ & ?). done.
    - split; [|done]. intros _. exists first, last_date. done.
    - split.
      + intros Hr.
        apply window_metrics_raises in Hr as [m [H1|H1]]; [discriminate|discriminate|].
        intros E. rewrite E in Hh. discriminate.
      + intros (? & ? & _ & _ & _ & ?). done.
    - split.
      + intros Hr.
        apply window_metrics_raises in Hr as [m [H1|H1]]; [discriminate|discriminate|].
        intros E. rewrite E in Hh. discriminate.
      + intros (f' & l' & [= <-] & [= <-] & ? & _). lia.
  }
  split; [exact Hiff|].
  intros -> H. apply Hiff in H as (? & ? & _ & _ & _ & ?). done.
Qed.

(** ** The nearest-date selection: [min(full_dates, key=...)] *)

Lemma min_scan_first_minimum {A : Type} (key : A -> Z) (l : list A) (best : A) :
  first_minimum key (best :: l) (min_scan key best l)
  /\ key (min_scan key best l) <= key best.
Proof.
  revert best. induction l as [|x l IH]; intros best; cbn [min_scan].
  - split; [|lia]. exists [], []. split; [done|]. split; intros y Hy; inversion Hy.
  - destruct (Z.ltb_spec (key x) (key best)) as [Hlt|Hge].
    + destruct (IH x) as [(pre & post & E & Hpre & Hpost) Hle]. split; [|lia].
      exists (best :: pre), post. split; [by rewrite E|]. split; [|done].
      intros y [->|Hy]%elem_of_cons; [lia | by apply Hpre].
    + destruct (IH best) as [(pre & post & E & Hpre & Hpost) Hle]. split; [|lia].
      destruct pre as [|b pre]; cbn in E.
      * injection E as E1 E2. exists [], (x :: post). rewrite <- E1, E2. split; [done|].
        split; [intros y Hy; inversion Hy|].
        intros y [->|Hy]%elem_of_cons; [lia | rewrite E1; by apply Hpost].
      * injection E as <- E2. exists (best :: x :: pre), post.
        split; [cbn; by rewrite <- E2|].
        split; [|done].
        assert (key (min_scan key best l) < key best) by (apply Hpre; left).
        intros y [->|[->|Hy]%elem_of_cons]%elem_of_cons; [done | lia |].
        apply Hpre. by right.
Qed.

Lemma first_minimum_elem {A : Type} (key : A -> Z) (l : list A) (m : A) :
  first_minimum key l m -> m ∈ l /\ forall x, x ∈ l -> key m <= key x.
Proof.
  intros (pre & post & -> & Hpre & Hpost). split.
  - apply elem_of_app. right. left.
  - intros x [Hx|[->|Hx]%elem_of_cons]%elem_of_app.
    + apply Hpre in Hx. lia.
    + lia.
    + by apply Hpost.
Qed.

(** ** Label slicing on an ascending index *)

Lemma ascending_cons (x : Timestamp) (xs : list Timestamp) :
  ascending (x :: xs) = true ->
  ascending xs = true /\ Forall (date_le x) xs.
Proof.
  revert x. induction xs as [|y ys IH]; intros x H.
  - split; [done | constructor].
  - cbn [ascending] in H. apply andb_prop in H as [Hxy Hrest].
    unfold ts_leb in Hxy. apply Z.leb_le in Hxy.
    split; [exact Hrest|]. constructor; [exact Hxy|].
    destruct (IH y Hrest) as [_ Hall].
    eapply Forall_impl; [exact Hall|]. unfold date_le. intros z Hz. lia.
Qed.

Lemma count_where_none (f : Timestamp -> bool) (l : list Timestamp) :
  Forall (fun x => f x = false) l -> count_where f l = 0%nat.
Proof.
  unfold count_where. induction 1 as [|x l Hx _ IH]; [done|].
  cbn. by rewrite Hx.
Qed.

Lemma positions_from_none (i : nat) (label : Timestamp) (l : list Timestamp) :
  Forall (fun x => ts_eqb x label = false) l -> positions_from i label l = [].
Proof.
  intros H. revert i. induction H as [|x l Hx _ IH]; intros i; [done|].
  cbn. rewrite Hx. cbn. apply IH.
Qed.

(** On an ascending index the positions of a label are one run: it
    starts after the dates before the label and is as long as the number
    of dates equal to it. *)
Lemma positions_from_ascending (i : nat) (label : Timestamp) (idx : list Timestamp) :
  ascending idx = true ->
  positions_from i label idx
  = seq (i + count_where (fun x => ts_ltb x label) idx)
        (count_where (fun x => ts_eqb x label) idx).
Proof.
  revert i. induction idx as [|x xs IH]; intros i Hasc.
  - reflexivity.
  - apply ascending_cons in Hasc as [Hrest Hall].
    cbn [positions_from]. unfold count_where in *. cbn [List.filter].
    unfold ts_ltb, ts_eqb in *.
    destruct (Z.ltb_spec (toordinal x) (toordinal label)) as [Hlt|Hge].
    + destruct (Z.eqb_spec (toordinal x) (toordinal label)); [lia|].
      cbn [app length]. rewrite IH by done. f_equal. lia.
    + assert (Hnolt : length (List.filter (fun y => toordinal y <? toordinal label) xs) = 0%nat).
      { apply (count_where_none (fun y => toordinal y <? toordinal label)).
        eapply Forall_impl; [exact Hall|]. unfold date_le. intros z Hz.
        apply Z.ltb_ge. lia. }
      rewrite Hnolt in *.
      destruct (Z.eqb_spec (toordinal x) (toordinal label)) as [Heq|Hne].
      * cbn [app length seq]. rewrite IH by done. rewrite ?Hnolt.
        replace (i + 0)%nat with i by lia. replace (S i + 0)%nat with (S i) by lia.
        reflexivity.
      * rewrite (positions_from_none (S i) label xs).
        2:{ eapply Forall_impl; [exact Hall|]. unfold date_le, ts_eqb. intros z Hz.
            apply Z.eqb_neq. lia. }
        assert (Hnoeq : length (List.filter (fun y => toordinal y =? toordinal label) xs) = 0%nat).
        { apply (count_where_none (fun y => toordinal y =? toordinal label)).
          eapply Forall_impl; [exact Hall|]. unfold date_le. intros z Hz.
          apply Z.eqb_neq. lia. }
        rewrite Hnoeq. reflexivity.
Qed.

Lemma count_where_le_split (label : Timestamp) (idx : list Timestamp) :
  count_where (fun x => ts_leb x label) idx
  = (count_where (fun x => ts_ltb x label) idx
     + count_where (fun x => ts_eqb x label) idx)%nat.
Proof.
  unfold count_where, ts_leb, ts_ltb, ts_eqb.
  induction idx as [|x xs IH]; [done|]. cbn [List.filter].
  destruct (Z.leb_spec (toordinal x) (toordinal label));
    destruct (Z.ltb_spec (toordinal x) (toordinal label));
    destruct (Z.eqb_spec (toordinal x) (toordinal label)); try lia; cbn [length]; lia.
Qed.

Lemma last_seq_succ (s n d : nat) : List.last (seq s (S n)) d = (s + n)%nat.
Proof.
  revert s. induction n as [|n IH]; intros s.
  - cbn. lia.
  - change (seq s (S (S n))) with (s :: seq (S s) (S n)).
    change (List.last (s :: seq (S s) (S n)) d) with (List.last (seq (S s) (S n)) d).
    rewrite IH. lia.
Qed.

Lemma get_slice_bound_ascending (idx : list Timestamp) (label : Timestamp) (s : side) :
  ascending idx = true ->
  get_slice_bound idx label s
  = Ok (match s with
        | Left => count_where (fun x => ts_ltb x label) idx
        | Right => count_where (fun x => ts_leb x label) idx
        end).
Proof.
  intros Hasc. unfold get_slice_bound, get_loc.
  rewrite positions_from_ascending by done.
  rewrite count_where_le_split.
  set (a := count_where (fun x => ts_ltb x label) idx).
  destruct (count_where (fun x => ts_eqb x label) idx) as [|[|k]] eqn:Hk.
  - cbn [seq]. unfold searchsorted_monotonic. rewrite Hasc.
    rewrite count_where_le_split, Hk. fold a. destruct s; f_equal; lia.
  - cbn [seq]. destruct s; f_equal; lia.
  - cbn [seq]. cbv zeta.
    change (S (0 + a) :: seq (S (S (0 + a))) k) with (seq (S (0 + a)) (S k)).
    rewrite last_seq_succ.
    cbn [length]. rewrite length_seq.
    replace (S (0 + a) + k + 1 - (0 + a))%nat with (S (S k)) by lia.
    rewrite Nat.eqb_refl. destruct s; f_equal; lia.
Qed.

(** The rows up to a date are a prefix of an ascending table. *)
Lemma take_count_ascending {A : Type} (rs : list (Timestamp * list A)) (label : Timestamp) :
  ascending (map fst rs) = true ->
  take (count_where (fun x => ts_leb x label) (map fst rs)) rs
  = List.filter (fun r => ts_leb (fst r) label) rs.
Proof.
  induction rs as [|r rs IH]; intros Hasc; [done|].
  cbn [map] in Hasc. apply ascending_cons in Hasc as [Hrest Hall].
  unfold count_where in *. cbn [map List.filter]. unfold ts_leb in *.
  destruct (Z.leb_spec (toordinal (fst r)) (toordinal label)) as [Hle|Hgt].
  - cbn [length take]. by rewrite IH.
  - assert (Hnone : List.filter (fun x => toordinal x <=? toordinal label) (map fst rs) = []).
    { apply length_zero_iff_nil.
      apply (count_where_none (fun x => toordinal x <=? toordinal label)).
      eapply Forall_impl; [exact Hall|]. unfold date_le. intros z Hz.
      apply Z.leb_gt. lia. }
    rewrite Hnone in *. cbn [length take]. cbn [length take] in IH.
    rewrite <- IH by done. by destruct rs.
Qed.

Lemma loc_slice_ascending {A : Type} (df : DataFrame A) (start_date label : Timestamp) :
  ascending (index df) = true ->
  head (index df) = Some start_date ->
  loc_slice df start_date label
  = Ok (mkFrame (columns df)
          (List.filter (fun r => ts_leb start_date (fst r) && ts_leb (fst r) label) (rows df))).
Proof.
  intros Hasc Hhead. unfold loc_slice.
  rewrite !get_slice_bound_ascending by done. rewrite !bind_Ok.
  unfold mret, result_ret. f_equal. f_equal.
  assert (Hstart : count_where (fun x => ts_ltb x start_date) (index df) = 0%nat
                   /\ Forall (date_le start_date) (index df)).
  { unfold index in *. destruct (rows df) as [|r rs]; [done|].
    cbn [map head] in Hhead. injection Hhead as Hr.
    cbn [map] in Hasc. apply ascending_cons in Hasc as [_ Hall].
    rewrite Hr in Hall.
    assert (Hall' : Forall (date_le start_date) (map fst (r :: rs))).
    { cbn [map]. constructor; [rewrite Hr; unfold date_le; lia | exact Hall]. }
    split; [|exact Hall'].
    apply count_where_none. eapply Forall_impl; [exact Hall'|].
    unfold date_le, ts_ltb. intros z Hz. apply Z.ltb_ge. lia. }
  destruct Hstart as [-> Hall].
  unfold py_slice. rewrite Nat.sub_0_r, drop_0.
  unfold index in *. rewrite take_count_ascending by done.
  apply List.filter_ext_in. intros r Hr.
  assert (Hle : date_le start_date (fst r)).
  { rewrite Forall_forall in Hall. apply Hall. apply list_elem_of_In.
    apply in_map. exact Hr. }
  unfold date_le in Hle. unfold ts_leb at 2.
  apply Z.leb_le in Hle. rewrite Hle. reflexivity.
Qed.

Lemma ascending_after (pre post : list Timestamp) (m : Timestamp) :
  ascending (pre ++ m :: post) = true -> Forall (date_le m) post.
Proof.
  induction pre as [|p pre IH]; cbn [app]; intros H.
  - by apply ascending_cons in H as [_ H].
  - apply ascending_cons in H as [H _]. by apply IH.
Qed.

Lemma window_metrics_ascending (returns : DataFrame cell) (start_date end_date : Timestamp) :
  ascending (index returns) = true ->
  head (index returns) = Some start_date ->
  exists closest_date,
    first_minimum (fun x => abs_diff x end_date) (index returns) closest_date
    /\ window_metrics returns start_date end_date
       = construct_key_metrics
           (mkFrame (columns returns)
              (List.filter (fun r => ts_leb start_date (fst r) && ts_leb (fst r) closest_date)
                           (rows returns))).
Proof.
  intros Hasc Hhead. unfold window_metrics.
  destruct (index returns) as [|x xs] eqn:E; [discriminate|].
  exists (min_scan (fun x => abs_diff x end_date) x xs). split.
  - apply min_scan_first_minimum.
  - cbn [py_min_key]. rewrite bind_Ok.
    rewrite loc_slice_ascending; [by rewrite bind_Ok | by rewrite E | by rewrite E].
Qed.

(** C3: on a non-empty table with an ascending index, for a positive int
    duration that passes the length check, the function returns the
    metrics of the rows dated from the first date through [closest_date],
    where [closest_date] is an index date at minimum distance from the
    first date plus [d] months, the first such date in index order and
    hence the smallest one among equidistant dates. *)
Theorem backtest_resample_nearest_date
    (returns : DataFrame cell) (d : Z) (start_date last_date : Timestamp) :
  head (index returns) = Some start_date ->
  last (index returns) = Some last_date ->
  ascending (index returns) = true ->
  0 < d ->
  ts_ltb last_date (add_relativedelta start_date (relativedelta_months d))
    && negb (d =? Z.of_nat (length (index returns))) = false ->
  let end_date := add_relativedelta start_date (relativedelta_months d) in
  exists closest_date,
    closest_date ∈ index returns
    /\ (forall x, x ∈ index returns -> abs_diff closest_date end_date <= abs_diff x end_date)
    /\ first_minimum (fun x => abs_diff x end_date) (index returns) closest_date
    /\ (forall x, x ∈ index returns ->
          abs_diff x end_date = abs_diff closest_date end_date -> date_le closest_date x)
    /\ backtest_resample returns (PyInt d)
       = construct_key_metrics
           (mkFrame (columns returns)
              (List.filter (fun r => ts_leb start_date (fst r) && ts_leb (fst r) closest_date)
                           (rows returns))).
Proof.
  intros Hhead Hlast Hasc Hd Hpass end_date.
  destruct (window_metrics_ascending returns start_date end_date Hasc Hhead)
    as (closest_date & Hmin & Hres).
  exists closest_date.
  destruct (first_minimum_elem _ _ _ Hmin) as [Hin Hle].
  split; [exact Hin|]. split; [exact Hle|]. split; [exact Hmin|]. split.
  - destruct Hmin as (pre & post & E & Hpre & Hpost).
    intros x Hx Heq. rewrite E in Hx, Hasc.
    apply elem_of_app in Hx as [Hx|[->|Hx]%elem_of_cons].
    + apply Hpre in Hx. lia.
    + unfold date_le. lia.
    + apply ascending_after in Hasc. rewrite Forall_forall in Hasc. by apply Hasc.
  - rewrite backtest_resample_unfold by done. rewrite Hhead, Hlast.
    cbv zeta. fold end_date. unfold end_date at 1. rewrite Hpass. exact Hres.
Qed.

(** ** Month arithmetic *)

Lemma days_before_year_succ (y : Z) :
  days_before_year (y + 1) = days_before_year y + 365 + (if is_leap y then 1 else 0).
Proof.
  unfold days_before_year, is_leap. cbv zeta.
  replace (y + 1 - 1) with y by lia.
  destruct (Z.eqb_spec (y mod 4) 0); destruct (Z.eqb_spec (y mod 100) 0);
    destruct (Z.eqb_spec (y mod 400) 0); cbn [andb orb negb];
    Z.div_mod_to_equations; lia.
Qed.

Lemma days_in_month_pos (y m : Z) : 28 <= days_in_month y m <= 31.
Proof.
  unfold days_in_month.
  destruct (m =? 2); [destruct (is_leap y); lia|].
  destruct (_ || _); lia.
Qed.

Lemma month_start_succ (y m : Z) :
  1 <= m <= 12 ->
  month_start y m + days_in_month y m
  = if m =? 12 then month_start (y + 1) 1 else month_start y (m + 1).
Proof.
  intros Hm. unfold month_start.
  assert (Hcases : m = 1 \/ m = 2 \/ m = 3 \/ m = 4 \/ m = 5 \/ m = 6 \/ m = 7
                   \/ m = 8 \/ m = 9 \/ m = 10 \/ m = 11 \/ m = 12) by lia.
  destruct Hcases as [->|[->|[->|[->|[->|[->|[->|[->|[->|[->|[->| ->]]]]]]]]]]];
    cbn [Z.eqb Pos.eqb]; rewrite ?days_before_year_succ;
    unfold days_before_month, days_in_month;
    generalize (days_before_year y); generalize (is_leap y);
    intros leap before;
    repeat match goal with
           | |- context [Z.pos ?a + Z.pos ?b] =>
               let v := eval vm_compute in (Z.pos a + Z.pos b) in
               change (Z.pos a + Z.pos b) with v
           end;
    cbn; destruct leap; lia.
Qed.

Lemma month_end_ordinal (t : Timestamp) :
  is_month_end t = true ->
  1 <= month t <= 12
  /\ toordinal t = month_start (year t) (month t) + days_in_month (year t) (month t).
Proof.
  unfold is_month_end, toordinal, month_start.
  intros H. apply andb_prop in H as [H Hd]. apply andb_prop in H as [H1 H2].
  apply Z.leb_le in H1, H2. apply Z.eqb_eq in Hd. rewrite Hd. split; [lia | reflexivity].
Qed.

(** From one month end to the next the ordinal grows, and the month
    number grows by one. *)
Lemma next_month_end (a b : Timestamp) :
  is_month_end a = true -> is_month_end b = true -> is_next_month a b = true ->
  date_lt a b /\ month_number b = month_number a + 1.
Proof.
  intros Ha Hb Hn.
  apply month_end_ordinal in Ha as [Hma Hoa]. apply month_end_ordinal in Hb as [Hmb Hob].
  unfold date_lt, month_number. rewrite Hoa, Hob.
  rewrite (month_start_succ (year a) (month a)) by done.
  pose proof (days_in_month_pos (year b) (month b)).
  unfold is_next_month in Hn.
  destruct (Z.eqb_spec (month a) 12) as [E|E].
  - apply andb_prop in Hn as [Hy Hm]. apply Z.eqb_eq in Hy, Hm. rewrite Hy, Hm in *. lia.
  - apply andb_prop in Hn as [Hy Hm]. apply Z.eqb_eq in Hy, Hm. rewrite Hy, Hm in *. lia.
Qed.

(** Adding [n > 0] months moves the month number by [n] and lands on a
    day of the month reached. *)
Lemma add_months_number (t : Timestamp) (n : Z) :
  0 < n -> 1 <= month t <= 12 -> 1 <= day t ->
  let e := add_relativedelta t (relativedelta_months n) in
  month_number e = month_number t + n /\ 1 <= month e <= 12 /\ 1 <= day e.
Proof.
  intros Hn Hm Hd. unfold add_relativedelta, relativedelta_months, month_number.
  rewrite (Z.abs_eq n) by lia. rewrite (Z.sgn_pos n) by lia. rewrite !Z.mul_1_r.
  destruct (Z.ltb_spec 11 n) as [Hbig|Hsmall]; cbn [years months].
  - pose proof (Z.div_mod n 12 ltac:(lia)) as Hdm.
    pose proof (Z.mod_pos_bound n 12 ltac:(lia)) as Hb.
    destruct (Z.eqb_spec (n mod 12) 0) as [E0|E0].
    + cbn [year month day]. pose proof (days_in_month_pos (year t + n / 12) (month t)).
      lia.
    + destruct (Z.ltb_spec 12 (month t + n mod 12)).
      * cbn [year month day].
        pose proof (days_in_month_pos (year t + n / 12 + 1) (month t + n mod 12 - 12)).
        lia.
      * destruct (Z.ltb_spec (month t + n mod 12) 1); [lia|].
        cbn [year month day].
        pose proof (days_in_month_pos (year t + n / 12) (month t + n mod 12)).
        lia.
  - destruct (Z.eqb_spec n 0); [lia|].
    destruct (Z.ltb_spec 12 (month t + n)).
    + cbn [year month day].
      pose proof (days_in_month_pos (year t + 0 + 1) (month t + n - 12)). lia.
    + destruct (Z.ltb_spec (month t + n) 1); [lia|].
      cbn [year month day].
      pose proof (days_in_month_pos (year t + 0) (month t + n)). lia.
Qed.

(** ** A table of consecutive month ends *)

Lemma consecutive_month_ends_sorted (idx : list Timestamp) :
  forallb is_month_end idx = true -> consecutive_months idx = true ->
  StronglySorted date_lt idx.
Proof.
  induction idx as [|a rest IH]; intros Hme Hc; [constructor|].
  cbn [forallb] in Hme. apply andb_prop in Hme as [Ha Hrest].
  destruct rest as [|b r].
  - constructor; constructor.
  - cbn [consecutive_months] in Hc. apply andb_prop in Hc as [Hab Hc].
    specialize (IH Hrest Hc).
    assert (Hb : is_month_end b = true)
      by (cbn [forallb] in Hrest; by apply andb_prop in Hrest as [? _]).
    destruct (next_month_end a b Ha Hb Hab) as [Hlt _].
    constructor; [exact IH|].
    constructor; [exact Hlt|].
    apply StronglySorted_inv in IH as [_ Hall].
    eapply Forall_impl; [exact Hall|]. unfold date_lt in *. intros z Hz. lia.
Qed.

Lemma consecutive_month_ends_last (idx : list Timestamp) (a l : Timestamp) :
  forallb is_month_end (a :: idx) = true -> consecutive_months (a :: idx) = true ->
  last (a :: idx) = Some l ->
  month_number l = month_number a + Z.of_nat (length idx) /\ is_month_end l = true.
Proof.
  revert a. induction idx as [|b r IH]; intros a Hme Hc Hl.
  - cbn in Hl. injection Hl as <-. cbn [forallb] in Hme.
    apply andb_prop in Hme as [Ha _]. cbn [length]. split; [lia | exact Ha].
  - cbn [forallb] in Hme. apply andb_prop in Hme as [Ha Hrest].
    cbn [consecutive_months] in Hc. apply andb_prop in Hc as [Hab Hc].
    assert (Hb : is_month_end b = true)
      by (cbn [forallb] in Hrest; by apply andb_prop in Hrest as [? _]).
    destruct (next_month_end a b Ha Hb Hab) as [_ Hnum].
    change (last (a :: b :: r)) with (last (b :: r)) in Hl.
    destruct (IH b Hrest Hc Hl) as [Hn Hlme]. split; [|exact Hlme].
    cbn [length]. lia.
Qed.

Lemma sorted_ascending (idx : list Timestamp) :
  StronglySorted date_lt idx -> ascending idx = true.
Proof.
  induction 1 as [|a rest Hs IH Hall]; [done|].
  destruct rest as [|b r]; [done|].
  change (ascending (a :: b :: r)) with (ts_leb a b && ascending (b :: r)).
  rewrite IH, andb_true_r.
  apply Forall_inv in Hall. unfold date_lt in Hall. unfold ts_leb. apply Z.leb_le. lia.
Qed.

Lemma sorted_below_last (idx : list Timestamp) (l : Timestamp) :
  StronglySorted date_lt idx -> last idx = Some l -> Forall (fun x => date_le x l) idx.
Proof.
  induction 1 as [|a rest Hs IH Hall]; intros Hl; [constructor|].
  destruct rest as [|b r].
  - cbn in Hl. injection Hl as <-. constructor; [unfold date_le; lia | constructor].
  - change (last (a :: b :: r)) with (last (b :: r)) in Hl.
    specialize (IH Hl). constructor; [|exact IH].
    apply Forall_inv in Hall. apply Forall_inv in IH. unfold date_lt, date_le in *. lia.
Qed.

Lemma filter_all {A : Type} (f : A -> bool) (l : list A) :
  Forall (fun x => f x = true) l -> List.filter f l = l.
Proof. induction 1 as [|x l Hx _ IH]; [done|]. cbn. by rewrite Hx, IH. Qed.

(** With a strictly ascending index that ends before the nominal end
    date, the nearest date is the last one and the window is the whole
    table. *)
Lemma window_metrics_whole (returns : DataFrame cell) (start_date last_date end_date : Timestamp) :
  StronglySorted date_lt (index returns) ->
  head (index returns) = Some start_date ->
  last (index returns) = Some last_date ->
  date_le last_date end_date ->
  window_metrics returns start_date end_date = construct_key_metrics returns.
Proof.
  intros Hs Hhead Hlast Hend.
  pose proof (sorted_ascending _ Hs) as Hasc.
  destruct (window_metrics_ascending returns start_date end_date Hasc Hhead)
    as (closest_date & (pre & post & E & Hpre & Hpost) & ->).
  pose proof (sorted_below_last _ _ Hs Hlast) as Hbelow.
  assert (Hpost_nil : post = []).
  { destruct post as [|x post]; [done|]. exfalso.
    assert (Hx : abs_diff closest_date end_date <= abs_diff x end_date)
      by (apply Hpost; left).
    rewrite E in Hs, Hbelow.
    apply StronglySorted_app_1_r in Hs. apply StronglySorted_inv in Hs as [_ Hall].
    apply Forall_inv in Hall.
    rewrite Forall_forall in Hbelow.
    assert (Hxl : date_le x last_date).
    { apply Hbelow. apply elem_of_app. right. right. left. }
    unfold abs_diff, date_lt, date_le in *. lia. }
  subst post.
  assert (closest_date = last_date) as ->.
  { rewrite E in Hlast. rewrite last_snoc in Hlast. by injection Hlast. }
  f_equal. destruct returns as [cols rs]. cbn [columns rows]. f_equal.
  apply filter_all. unfold index in *. cbn [rows] in *.
  rewrite Forall_forall. intros r Hr.
  assert (Hin : fst r ∈ map fst rs) by (apply list_elem_of_fmap; eauto).
  rewrite Forall_forall in Hbelow. specialize (Hbelow _ Hin).
  apply sorted_ascending in Hs.
  destruct rs as [|r0 rs']; [by apply elem_of_nil in Hr|].
  cbn [map head] in Hhead. injection Hhead as <-.
  cbn [map] in Hs. apply ascending_cons in Hs as [_ Hall].
  unfold ts_leb. apply andb_true_intro. split; apply Z.leb_le.
  - cbn [map] in Hin. apply elem_of_cons in Hin as [->|Hin]; [lia|].
    rewrite Forall_forall in Hall. specialize (Hall _ Hin).
    unfold date_le in Hall. lia.
  - exact Hbelow.
Qed.

(** C4: on a non-empty table whose index is a run of consecutive month
    ends, a duration equal to the number of rows gives exactly the
    metrics of the whole table. *)
Theorem backtest_resample_full_length (returns : DataFrame cell) :
  rows returns <> [] ->
  consecutive_month_ends (index returns) = true ->
  backtest_resample returns (PyInt (Z.of_nat (length (rows returns))))
  = construct_key_metrics returns.
Proof.
  intros Hne Hcme.
  destruct (head_index_nonempty returns Hne) as (start_date & last_date & Hhead & Hlast).
  assert (Hlen : length (index returns) = length (rows returns))
    by (unfold index; apply length_map).
  assert (Hpos : 0 < Z.of_nat (length (rows returns)))
    by (destruct (rows returns); [done | cbn [length]; lia]).
  rewrite backtest_resample_unfold by done. rewrite Hhead, Hlast. cbv zeta.
  rewrite Hlen, Z.eqb_refl. cbn [negb]. rewrite andb_false_r.
  unfold consecutive_month_ends in Hcme. apply andb_prop in Hcme as [Hme Hc].
  apply (window_metrics_whole returns start_date last_date); try done.
  { by apply consecutive_month_ends_sorted. }
  destruct (index returns) as [|a rest] eqn:E; [discriminate|].
  cbn [head] in Hhead. injection Hhead as ->.
  destruct (consecutive_month_ends_last rest start_date last_date Hme Hc Hlast)
    as [Hnum Hlme].
  assert (Hsme : is_month_end start_date = true)
    by (cbn [forallb] in Hme; by apply andb_prop in Hme as [? _]).
  destruct (month_end_ordinal _ Hsme) as [Hsm _].
  assert (Hsd : 1 <= day start_date).
  { unfold is_month_end in Hsme. apply andb_prop in Hsme as [_ Hd].
    apply Z.eqb_eq in Hd.
    pose proof (days_in_month_pos (year start_date) (month start_date)). lia. }
  destruct (add_months_number start_date (Z.of_nat (length (rows returns))) Hpos Hsm Hsd)
    as (Hen & Hem & Hed).
  set (end_date := add_relativedelta start_date
                     (relativedelta_months (Z.of_nat (length (rows returns))))) in *.
  destruct (month_end_ordinal _ Hlme) as [Hlm Hlo].
  rewrite month_start_succ in Hlo by done.
  cbn [length] in Hlen. unfold month_number in *.
  unfold date_le. rewrite Hlo. unfold toordinal at 1. fold (month_start (year end_date) (month end_date)).
  destruct (Z.eqb_spec (month last_date) 12) as [E12|E12].
  - assert (year end_date = year last_date + 1 /\ month end_date = 1) as [-> ->] by lia. lia.
  - assert (year end_date = year last_date /\ month end_date = month last_date + 1)
      as [-> ->] by lia. lia.
Qed.

(** ** The availability check *)

Lemma max_scan_maximum (best : Z) (l : list Z) : is_maximum (max_scan best l) (best :: l).
Proof.
  revert best. induction l as [|x l IH]; intros best; cbn [max_scan].
  - split; [left|]. intros y [->|Hy]%elem_of_cons; [lia | inversion Hy].
  - destruct (Z.ltb_spec best x).
    + destruct (IH x) as [Hin Hmax]. split.
      * right. exact Hin.
      * intros y [->|Hy]%elem_of_cons; [|by apply Hmax].
        specialize (Hmax x ltac:(left)). lia.
    + destruct (IH best) as [Hin Hmax]. split.
      * apply elem_of_cons in Hin as [->|Hin]; [left | right; by right].
      * intros y [->|[->|Hy]%elem_of_cons]%elem_of_cons.
        -- apply Hmax. left.
        -- specialize (Hmax best ltac:(left)). lia.
        -- apply Hmax. by right.
Qed.

Lemma py_max_maximum (l : list Z) :
  l <> [] -> exists hi, py_max l = Ok hi /\ is_maximum hi l.
Proof.
  destruct l as [|x l]; [done|]. intros _. eexists. split; [reflexivity|].
  apply max_scan_maximum.
Qed.

Lemma py_min_minimum (l : list Z) :
  l <> [] -> exists lo, py_min l = Ok lo /\ is_minimum lo l.
Proof.
  destruct l as [|x l]; [done|]. intros _. eexists. split; [reflexivity|].
  destruct (min_scan_first_minimum (fun y : Z => y) l x) as [Hfm _].
  apply first_minimum_elem in Hfm. exact Hfm.
Qed.


Lemma py_getitem_nat {A : Type} (l : list A) (i : nat) (x : A) :
  l !! i = Some x -> py_getitem l (Z.of_nat i) = Ok x.
Proof.
  intros H. unfold py_getitem.
  destruct (Z.ltb_spec (Z.of_nat i) 0); [lia|].
  destruct (Z.ltb_spec (Z.of_nat i) 0); [lia|].
  by rewrite Nat2Z.id, H.
Qed.

Lemma collect_bad_range (tickers : list pyval) (ys : list Z) (start : string)
    (requested : Z) (n k : nat) (acc : list pyval) :
  py_int (str_take 4 start) = Ok requested ->
  length tickers = length ys ->
  (k + n)%nat = length ys ->
  collect_bad tickers ys start (seq k n) acc
  = Ok (acc ++ differing_tickers requested (drop k tickers) (drop k ys)).
Proof.
  intros Hreq Hlen. revert k acc. induction n as [|n IH]; intros k acc Hk.
  - cbn [seq collect_bad]. rewrite !drop_ge by lia.
    unfold differing_tickers. cbn. by rewrite app_nil_r.
  - cbn [seq collect_bad].
    destruct (lookup_lt_is_Some_2 ys k ltac:(lia)) as [y Hy].
    destruct (lookup_lt_is_Some_2 tickers k ltac:(lia)) as [t Ht].
    rewrite (py_getitem_nat _ _ _ Hy), bind_Ok, Hreq, bind_Ok.
    rewrite (drop_S _ _ _ Hy), (drop_S _ _ _ Ht).
    unfold differing_tickers. cbn [zip zip_with List.filter snd].
    destruct (negb (y =? requested)).
    + rewrite (py_getitem_nat _ _ _ Ht), bind_Ok. rewrite IH by lia.
      unfold differing_tickers. cbn [map fst]. by rewrite <- app_assoc.
    + rewrite IH by lia. reflexivity.
Qed.


(** ** Returns from prices *)

Lemma fdiv_nan_r (x : float) : fdiv x NaN = NaN.
Proof. by destruct x. Qed.

Lemma pct_rows_first (r : Timestamp * list float) (rest : list (Timestamp * list float))
    (t : Timestamp) (cells : list float) :
  head (pct_rows [] (r :: rest)) = Some (t, cells) -> Forall (fun x => x = NaN) cells.
Proof.
  destruct r as [t0 r]. cbn [pct_rows head]. intros [= <- <-].
  rewrite Forall_forall. intros x Hx.
  apply elem_of_lookup_imap in Hx as (j & y & -> & _).
  unfold prev_cell. rewrite lookup_nil. cbn [default]. by rewrite fdiv_nan_r.
Qed.

Lemma pct_change_first (pad : bool) (df : DataFrame float) (t : Timestamp) (cells : list float) :
  head (rows (pct_change pad df)) = Some (t, cells) -> Forall (fun x => x = NaN) cells.
Proof.
  unfold pct_change. cbn [rows].
  destruct (if pad then ffill_rows [] (rows df) else rows df) as [|r rest]; [discriminate|].
  apply pct_rows_first.
Qed.

Lemma fill0_not_nan (x : float) : is_nan (fill0 x) = false.
Proof. by destruct x. Qed.

(** Whatever the price table, the returns table has the index of the
    percent-change table, each of its cells is the percent-change cell
    with NaN replaced by 0, its first row is all 0 (the first
    percent-change row is all NaN), and no cell of it is NaN. *)
Lemma returns_from_prices_filled
    (resample_ME_last : DataFrame float -> DataFrame float) (pad : bool)
    (data : DataFrame float) :
  let raw := pct_change pad (resample_ME_last data) in
  let returns := returns_from_prices resample_ME_last pad data in
  (forall t cells, head (rows returns) = Some (t, cells) -> Forall (fun x => x = Fin 0) cells)
  /\ (forall r, r ∈ rows returns -> Forall (fun x => is_nan x = false) (snd r))
  /\ (forall t cells, head (rows raw) = Some (t, cells) -> Forall (fun x => x = NaN) cells)
  /\ index returns = index raw
  /\ (forall i j t cells x,
        rows raw !! i = Some (t, cells) -> cells !! j = Some x ->
        exists cells', rows returns !! i = Some (t, cells')
                       /\ cells' !! j = Some (if is_nan x then Fin 0 else x)).
Proof.
  intros raw returns.
  assert (Hrows : rows returns = map (fun r => (fst r, map fill0 (snd r))) (rows raw))
    by reflexivity.
  assert (Hfirst : forall t cells, head (rows raw) = Some (t, cells) ->
                                   Forall (fun x => x = NaN) cells)
    by apply pct_change_first.
  repeat split.
  - intros t cells. rewrite Hrows.
    destruct (rows raw) as [|[t0 r0] rest] eqn:E; [discriminate|].
    cbn [map head fst snd]. intros [= <- <-].
    specialize (Hfirst t0 r0 eq_refl).
    rewrite Forall_forall in *. intros x Hx.
    apply list_elem_of_fmap in Hx as (y & -> & Hy). by rewrite (Hfirst y Hy).
  - intros r. rewrite Hrows. intros (r0 & -> & _)%list_elem_of_fmap.
    cbn [snd]. rewrite Forall_forall. intros x (y & -> & _)%list_elem_of_fmap.
    apply fill0_not_nan.
  - exact Hfirst.
  - unfold index. rewrite Hrows. rewrite <- list_fmap_compose.
    apply list_fmap_ext. intros ? []. reflexivity.
  - intros i j t cells x Hi Hj. exists (map fill0 cells). split.
    + rewrite Hrows. rewrite list_lookup_fmap, Hi. reflexivity.
    + rewrite list_lookup_fmap, Hj. reflexivity.
Qed.

(** ** Validation of the parameters *)

Lemma not_accepted_spec (value : pyval) :
  not_accepted value = true <-> ~ is_accepted value.
Proof.
  unfold is_accepted. destruct value; cbn [not_accepted];
    try (split; [intros _ (? & _ & ?); discriminate | done]).
  rewrite negb_true_iff. split.
  - intros H (token & Hin & [= ->]).
    apply not_true_iff_false in H. apply H.
    apply existsb_exists. exists token. split; [by apply list_elem_of_In|].
    apply String.eqb_refl.
  - intros H. apply not_true_iff_false. intros Hex. apply H.
    apply existsb_exists in Hex as (token & Hin & Heq).
    apply String.eqb_eq in Heq as ->. exists token. split; [by apply list_elem_of_In | done].
Qed.

Lemma check_intervals_spec (items : list (string * pyval)) :
  (check_intervals items = Raise interval_error
   /\ exists key value, (key, value) ∈ items /\ key <> "sample_period_end"
                        /\ not_accepted value = true)
  \/ (check_intervals items = Ok tt
      /\ forall key value, (key, value) ∈ items -> key <> "sample_period_end" ->
                           not_accepted value = false).
Proof.
  induction items as [|[key value] rest IH]; cbn [check_intervals].
  - right. split; [done|]. intros ? ? H. inversion H.
  - destruct (String.eqb_spec key "sample_period_end") as [->|Hkey]; cbn [negb andb].
    + destruct IH as [(-> & k & v & Hin & Hk & Hv)|(-> & Hall)].
      * left. split; [done|]. exists k, v. split; [by right | done].
      * right. split; [done|]. intros k v [[= -> ->]|Hin]%elem_of_cons Hk; [done|].
        by apply (Hall k v).
    + destruct (not_accepted value) eqn:Hv.
      * left. split; [done|]. exists key, value. split; [left | done].
      * destruct IH as [(-> & k & v & Hin & Hk & Hv')|(-> & Hall)].
        -- left. split; [done|]. exists k, v. split; [by right | done].
        -- right. split; [done|]. intros k v [[= -> ->]|Hin]%elem_of_cons Hk; [done|].
           by apply (Hall k v).
Qed.

Lemma check_required_present (d : gmap string pyval) :
  is_Some (d !! "sample_time_step") -> is_Some (d !! "total_sample_period") ->
  is_Some (d !! "sample_period_end") ->
  check_required required_keys (PyDict d) = Ok tt.
Proof.
  intros H1 H2 H3. unfold required_keys. cbn [check_required py_contains].
  rewrite !bind_Ok. rewrite !bool_decide_eq_true_2 by done. reflexivity.
Qed.

(** The outcome of steps 4 to 6 on a parameter object that holds the
    three keys, with a text under [sample_period_end]. *)
Lemma validate_parameters_cases (d : gmap string pyval) (s : string) :
  d !! "sample_period_end" = Some (PyStr s) ->
  is_Some (d !! "sample_time_step") -> is_Some (d !! "total_sample_period") ->
  (strptime s = None /\ validate_parameters (PyDict d) = Raise date_error)
  \/ (is_Some (strptime s) /\ has_bad_interval d
      /\ validate_parameters (PyDict d) = Raise interval_error)
  \/ (is_Some (strptime s) /\ ~ has_bad_interval d
      /\ validate_parameters (PyDict d) = Ok tt).
Proof.
  intros Hend H1 H2. unfold validate_parameters.
  rewrite check_required_present by (rewrite ?Hend; eauto). rewrite bind_Ok.
  cbn [py_getitem_str]. rewrite Hend, bind_Ok. cbn [check_date].
  destruct (strptime s) as [t|] eqn:Hs.
  2:{ left. split; [done|]. by rewrite bind_Raise. }
  right. rewrite bind_Ok. cbn [py_items]. rewrite bind_Ok.
  destruct (check_intervals_spec (map_to_list d))
    as [(-> & k & v & Hin & Hk & Hv)|(-> & Hall)].
  - left. split; [eauto|]. split; [|done].
    exists k, v. apply elem_of_map_to_list in Hin. split; [done|]. split; [done|].
    by apply not_accepted_spec.
  - right. split; [eauto|]. split; [|done].
    intros (k & v & Hk & Hin & Hv). apply elem_of_map_to_list in Hin.
    apply not_accepted_spec in Hv. rewrite (Hall k v Hin Hk) in Hv. discriminate.
Qed.

Lemma digit_range (c : Ascii.ascii) (x : Z) : digit c = Some x -> 0 <= x <= 9.
Proof.
  unfold digit.
  destruct (Z.leb_spec 48 (Z.of_N (Ascii.N_of_ascii c)));
    destruct (Z.leb_spec (Z.of_N (Ascii.N_of_ascii c)) 57); cbn [andb];
    intros [= <-]; lia.
Qed.

Ltac bool_prop :=
  rewrite ?andb_true_iff, ?orb_true_iff, ?Z.eqb_eq, ?Z.leb_le in *.

(** A text in the strict shape [YYYY-MM-DD] that names a date is parsed
    by [strptime], to that date. *)
Lemma matches_strptime (s : string) :
  matches_YYYY_MM_DD s = true -> is_Some (strptime s).
Proof.
  unfold matches_YYYY_MM_DD.
  destruct s as [|y1 [|y2 [|y3 [|y4 [|c1 [|m1 [|m2 [|c2 [|d1 [|d2 [|? ?]]]]]]]]]]];
    try discriminate.
  destruct (digit y1) as [a|] eqn:Ea; [|discriminate].
  destruct (digit y2) as [b|] eqn:Eb; [|discriminate].
  destruct (digit y3) as [c|] eqn:Ec; [|discriminate].
  destruct (digit y4) as [d|] eqn:Ed; [|discriminate].
  destruct (digit m1) as [e|] eqn:Ee; [|discriminate].
  destruct (digit m2) as [f|] eqn:Ef; [|discriminate].
  destruct (digit d1) as [g|] eqn:Eg; [|discriminate].
  destruct (digit d2) as [h|] eqn:Eh; [|discriminate].
  cbv zeta. intros H. bool_prop.
  destruct H as [[[[[[Hc1 Hc2] Hy] Hm1] Hm2] Hd1] Hd2].
  pose proof (digit_range _ _ Ee). pose proof (digit_range _ _ Ef).
  pose proof (digit_range _ _ Eg). pose proof (digit_range _ _ Eh).
  pose proof (days_in_month_pos (1000 * a + 100 * b + 10 * c + d) (10 * e + f)).
  unfold strptime, parse_Y. rewrite Ea, Eb, Ec, Ed, Hc1.
  unfold parse_m_dash. rewrite Ee, Ef, Hc2. cbn [andb].
  replace (((e =? 1) && (f <=? 2)) || ((e =? 0) && (1 <=? f))) with true
    by (symmetry; bool_prop; lia).
  unfold parse_d. rewrite Eg, Eh.
  replace (((g =? 3) && (h <=? 1)) || ((1 <=? g) && (g <=? 2)) || ((g =? 0) && (1 <=? h)))
    with true by (symmetry; bool_prop; lia).
  replace ((1 <=? 1000 * a + 100 * b + 10 * c + d)
           && (10 * g + h <=? days_in_month (1000 * a + 100 * b + 10 * c + d) (10 * e + f)))
    with true by (symmetry; bool_prop; lia).
  eauto.
Qed.

(** C8 as stated fails: [2024-1-5] does not have the shape [YYYY-MM-DD]
    and every other parameter is an accepted text, yet the validation
    raises nothing. *)
Lemma validate_parameters_unpadded_date :
  unpadded_parameters !! "sample_period_end" = Some (PyStr "2024-1-5")
  /\ matches_YYYY_MM_DD "2024-1-5" = false
  /\ validate_parameters (PyDict unpadded_parameters) = Ok tt
  /\ ~ (is_ValueError (validate_parameters (PyDict unpadded_parameters)) = true
        <-> (matches_YYYY_MM_DD "2024-1-5" = false \/ has_bad_interval unpadded_parameters)).
Proof.
  assert (Hv : validate_parameters (PyDict unpadded_parameters) = Ok tt) by (vm_compute; reflexivity).
  split; [reflexivity|]. split; [reflexivity|]. split; [exact Hv|].
  rewrite Hv. cbn [is_ValueError]. intros [_ H].
  discriminate H. left. reflexivity.
Qed.

(** C8, amended: on a parameter object holding the three required keys,
    with a text under [sample_period_end], the validation raises one of
    its two [ValueError]s exactly when [strptime] rejects that text or
    some other parameter is not an accepted period text; it raises the
    date error in the first case and the interval error otherwise. A
    text in the strict shape [YYYY-MM-DD] naming a date is never
    rejected. *)
Theorem validate_parameters_iff (d : gmap string pyval) (s : string) :
  d !! "sample_period_end" = Some (PyStr s) ->
  is_Some (d !! "sample_time_step") -> is_Some (d !! "total_sample_period") ->
  (is_ValueError (validate_parameters (PyDict d)) = true
   <-> strptime s = None \/ has_bad_interval d)
  /\ (strptime s = None -> validate_parameters (PyDict d) = Raise date_error)
  /\ (is_Some (strptime s) -> has_bad_interval d ->
      validate_parameters (PyDict d) = Raise interval_error)
  /\ (is_Some (strptime s) -> ~ has_bad_interval d ->
      validate_parameters (PyDict d) = Ok tt)
  /\ (matches_YYYY_MM_DD s = true -> is_Some (strptime s)).
Proof.
  intros Hend H1 H2.
  destruct (validate_parameters_cases d s Hend H1 H2)
    as [(Hs & ->)|[(Hs & Hbad & ->)|(Hs & Hok & ->)]].
  - split; [|split; [|split; [|split]]].
    + split; [by left | done].
    + done.
    + rewrite Hs. by intros [? ?].
    + rewrite Hs. by intros [? ?].
    + intros Hm. apply matches_strptime in Hm. rewrite Hs in Hm. by destruct Hm.
  - split; [|split; [|split; [|split]]].
    + split; [by right | done].
    + intros E. rewrite E in Hs. by destruct Hs.
    + done.
    + done.
    + apply matches_strptime.
  - split; [|split; [|split; [|split]]].
    + split; [discriminate|]. intros [E|Hbad]; [|done]. rewrite E in Hs. by destruct Hs.
    + intros E. rewrite E in Hs. by destruct Hs.
    + done.
    + done.
    + apply matches_strptime.
Qed.

(** ** The error messages of [construct_key_metrics] *)

Lemma occurs_first_char (c : Ascii.ascii) (s t : string) :
  occurs (String c s) t = true ->
  existsb (Ascii.eqb c) (list_ascii_of_string t) = true.
Proof.
  induction t as [|a t IH].
  - cbn. discriminate.
  - cbn [occurs String.prefix list_ascii_of_string existsb].
    destruct (Ascii.ascii_dec c a) as [->|Hne].
    + rewrite Ascii.eqb_refl. reflexivity.
    + cbn [orb]. intros H. rewrite (IH H). apply orb_true_r.
Qed.

Lemma shape_text_absent (text : string) (s : nat * nat) :
  existsb (Ascii.eqb "("%char) (list_ascii_of_string text) = false ->
  occurs (shape_text s) text = false.
Proof.
  intros H. destruct (occurs (shape_text s) text) eqn:E; [|reflexivity].
  unfold shape_text in E. cbn [String.append] in E.
  apply occurs_first_char in E. congruence.
Qed.

(** Whatever the two reductions are, a failure of either surfaces as a
    [RuntimeError] carrying one of the two fixed texts. *)
Lemma construct_key_metrics_via_raises
    (cov_method : DataFrame cell -> result (list (list float)))
    (std_method : DataFrame cell -> result (list (string * vol)))
    (returns : DataFrame cell) :
  ((exists e, cov_method returns = Raise e) ->
   construct_key_metrics_via cov_method std_method returns
   = Raise (RuntimeError [Lit covariance_error_text]))
  /\ ((exists c e, cov_method returns = Ok c /\ std_method returns = Raise e) ->
      construct_key_metrics_via cov_method std_method returns
      = Raise (RuntimeError [Lit volatility_error_text])).
Proof.
  unfold construct_key_metrics_via. split.
  - intros [e ->]. reflexivity.
  - intros (c & e & -> & ->). reflexivity.
Qed.

(** C6, at the failing input: on a two-by-one table of objects the
    covariance fails and the function raises [RuntimeError], but the
    message is the literal text of the source; neither it nor the
    volatility message contains the shape of any table. *)
Theorem construct_key_metrics_message_has_no_shape :
  shape object_frame = (2%nat, 1%nat)
  /\ construct_key_metrics object_frame = Raise (RuntimeError [Lit covariance_error_text])
  /\ occurs (shape_text (shape object_frame)) covariance_error_text = false
  /\ (forall s : nat * nat,
        occurs (shape_text s) covariance_error_text = false
        /\ occurs (shape_text s) volatility_error_text = false).
Proof.
  split; [reflexivity|]. split; [reflexivity|]. split; [reflexivity|].
  intros s. split; apply shape_text_absent; reflexivity.
Qed.

(** ** Volatilities *)

Lemma Qsquare_nonneg (q : Q) : (0 <= q * q)%Q.
Proof. unfold Qle, Qmult. cbn. nia. Qed.

Lemma Qsum_nonneg (l : list Q) : Forall (fun q => (0 <= q)%Q) l -> (0 <= Qsum l)%Q.
Proof.
  induction 1 as [|q l Hq _ IH]; cbn [Qsum foldr].
  - apply Qle_refl.
  - change (foldr Qplus 0%Q l) with (Qsum l).
    apply (Qle_trans _ (0 + 0)%Q); [apply Qle_refl | by apply Qplus_le_compat].
Qed.

Lemma sample_var_nonneg (xs : list Q) : (2 <= length xs)%nat -> (0 <= sample_var xs)%Q.
Proof.
  intros Hlen. unfold sample_var, sample_cov.
  apply Qle_shift_div_l.
  - unfold Qlen, Qlt, Qminus, Qplus, inject_Z. cbn. lia.
  - rewrite Qmult_0_l.
    apply Qsum_nonneg. rewrite Forall_forall. intros q Hq.
    apply elem_of_lookup_zip_with in Hq as (i & x & y & -> & Hx & Hy).
    assert (x = y) as -> by congruence. apply Qsquare_nonneg.
Qed.

Lemma finite_length (l : list float) (qs : list Q) :
  finite l = Some qs -> length qs = length l.
Proof.
  revert qs. induction l as [|[| | |q] l IH]; intros qs; cbn [finite]; try discriminate.
  - by intros [= <-].
  - destruct (finite l) as [qs'|]; [|discriminate]. intros [= <-].
    cbn [length]. by rewrite (IH qs').
Qed.

Lemma std_column_short (l : list float) : (length l < 2)%nat -> std_column l = None.
Proof.
  intros Hlen. unfold std_column.
  destruct (finite (dropna l)) as [qs|] eqn:E; [|reflexivity].
  apply finite_length in E.
  assert (length (dropna l) <= length l)%nat by (unfold dropna; apply List.filter_length_le).
  destruct (Nat.leb_spec 2 (length qs)); [lia | reflexivity].
Qed.

Lemma std_column_defined (l : list float) (qs : list Q) :
  finite (dropna l) = Some qs -> (2 <= length qs)%nat ->
  std_column l = Some (sqrt (Q2R (sample_var qs)))
  /\ (0 <= sqrt (Q2R (sample_var qs)))%R
  /\ (sqrt (Q2R (sample_var qs)) * sqrt (Q2R (sample_var qs)) = Q2R (sample_var qs))%R.
Proof.
  intros E Hlen. unfold std_column. rewrite E.
  destruct (Nat.leb_spec 2 (length qs)); [|lia].
  split; [reflexivity|]. split; [apply sqrt_pos|].
  apply sqrt_sqrt. rewrite <- RMicromega.Q2R_0. apply Qle_Rle.
  by apply sample_var_nonneg.
Qed.

Lemma construct_key_metrics_Ok (returns : DataFrame cell) (m : RiskMetrics) :
  construct_key_metrics returns = Ok m ->
  metrics_returns m = returns
  /\ metrics_volatilities m
     = imap (fun j name => (name, std_column (float_column returns j))) (columns returns).
Proof.
  unfold construct_key_metrics, construct_key_metrics_via, pandas_cov, pandas_std.
  destruct (all_convertible returns); [|discriminate].
  destruct (all_numeric returns); [|discriminate]. intros [= <-]. split; reflexivity.
Qed.

(** C9 as stated fails on a single row: the function succeeds and both
    volatilities are NaN, which is no non-negative real. *)
Lemma construct_key_metrics_single_row :
  exists m, construct_key_metrics single_row_frame = Ok m
            /\ metrics_volatilities m = [("A", None); ("B", None)]
            /\ ~ Forall (fun entry => vol_nonneg (snd entry)) (metrics_volatilities m).
Proof.
  eexists. split; [reflexivity|]. split; [reflexivity|].
  intros H. apply Forall_inv in H as (x & Hx & _). discriminate.
Qed.

(** C9, amended: when the function returns, there is one volatility per
    column, in column order. For a column whose defined cells are all
    finite and at least two, it is the square root of the sample
    variance (denominator [N - 1]) of those cells, a non-negative real
    whose square is that variance, itself non-negative. For a table of
    fewer than two rows every volatility is NaN. *)
Theorem construct_key_metrics_volatilities (returns : DataFrame cell) (m : RiskMetrics) :
  construct_key_metrics returns = Ok m ->
  map fst (metrics_volatilities m) = columns returns
  /\ (forall (j : nat) (name : string) (v : vol) (qs : list Q),
        metrics_volatilities m !! j = Some (name, v) ->
        finite (dropna (float_column returns j)) = Some qs ->
        (2 <= length qs)%nat ->
        vol_nonneg v
        /\ v = Some (sqrt (Q2R (sample_var qs)))
        /\ (0 <= sample_var qs)%Q
        /\ (sqrt (Q2R (sample_var qs)) * sqrt (Q2R (sample_var qs))
            = Q2R (sample_var qs))%R)
  /\ ((length (rows returns) < 2)%nat ->
      Forall (fun entry => snd entry = None) (metrics_volatilities m)).
Proof.
  intros Hm. apply construct_key_metrics_Ok in Hm as [_ Hv]. rewrite Hv.
  split; [|split].
  - apply list_eq. intros i. rewrite list_lookup_fmap, list_lookup_imap.
    by destruct (columns returns !! i).
  - intros j name v qs Hj Hfin Hlen.
    rewrite list_lookup_imap in Hj.
    destruct (columns returns !! j) as [name'|]; [|discriminate].
    cbn in Hj. injection Hj as <- <-.
    destruct (std_column_defined _ _ Hfin Hlen) as (Hs & Hpos & Hsq).
    split; [exists (sqrt (Q2R (sample_var qs))); by rewrite Hs|].
    split; [exact Hs|]. split; [by apply sample_var_nonneg | exact Hsq].
  - intros Hlen. rewrite Forall_forall. intros entry Hin.
    apply elem_of_lookup_imap in Hin as (j & name & -> & _). cbn [snd].
    apply std_column_short. unfold float_column, column. by rewrite !length_map.
Qed.

(** ** The stages inside [retrieve_historical_returns] *)

Section BuilderStages.

Variable earliest_year : pyval -> string -> string -> Z.
Variable download_adj_close : string -> string -> string -> DataFrame float.
Variable resample_ME_last : DataFrame float -> DataFrame float.
Variable pad : bool.

(** The parameter validation and the availability check decide the
    outcome of the builder in the order of the source. *)
Lemma retrieve_historical_returns_stages
    (ETFInfo : gmap string pyval) (tickers : list pyval) (d : gmap string pyval)
    (sample_period_end total_sample_period : string) :
  check_schema ETFInfo = Ok (tickers, PyDict d) ->
  d !! "sample_period_end" = Some (PyStr sample_period_end) ->
  d !! "total_sample_period" = Some (PyStr total_sample_period) ->
  retrieve_historical_returns earliest_year download_adj_close resample_ME_last pad ETFInfo
  = (_ ← validate_parameters (PyDict d);
     sample_period_start ← period_start sample_period_end total_sample_period;
     _ ← check_availability tickers
           (map (fun ticker => earliest_year ticker sample_period_start sample_period_end)
                tickers)
           sample_period_start;
     names ← ticker_names tickers;
     Ok (returns_from_prices resample_ME_last pad
           (download_adj_close (String.concat " " names)
              sample_period_start sample_period_end))).
Proof.
  intros Hs He Ht. unfold retrieve_historical_returns. rewrite Hs, bind_Ok.
  destruct (validate_parameters (PyDict d)); [|reflexivity]. rewrite !bind_Ok.
  cbn [py_getitem_str]. rewrite He, Ht. reflexivity.
Qed.

End BuilderStages.

(** ** Concrete runs *)

Lemma backtest_resample_exceeds_iff_witness :
  backtest_resample sample_returns (PyInt 3) <> Raise exceeds_error.
Proof.
  apply (backtest_resample_exceeds_iff sample_returns 3); [lia | reflexivity].
Defined.

Lemma backtest_resample_nearest_date_witness :
  exists closest_date,
    closest_date ∈ index sample_returns
    /\ backtest_resample sample_returns (PyInt 1)
       = construct_key_metrics
           (mkFrame (columns sample_returns)
              (List.filter (fun r => ts_leb (mkTimestamp 2024 1 31) (fst r)
                                     && ts_leb (fst r) closest_date)
                           (rows sample_returns))).
Proof.
  destruct (backtest_resample_nearest_date sample_returns 1
              (mkTimestamp 2024 1 31) (mkTimestamp 2024 3 31)
              eq_refl eq_refl eq_refl ltac:(lia) eq_refl)
    as (closest_date & Hin & _ & _ & _ & Hres).
  exists closest_date. split; [exact Hin | exact Hres].
Defined.

Lemma backtest_resample_full_length_witness :
  backtest_resample sample_returns (PyInt 3) = construct_key_metrics sample_returns.
Proof.
  apply (backtest_resample_full_length sample_returns); [discriminate | reflexivity].
Defined.

Lemma validate_parameters_iff_witness :
  is_ValueError (validate_parameters (PyDict bad_date_parameters)) = true.
Proof.
  apply (validate_parameters_iff bad_date_parameters "2024-13-40").
  - reflexivity.
  - eexists. reflexivity.
  - eexists. reflexivity.
  - left. reflexivity.
Defined.

Lemma construct_key_metrics_volatilities_witness :
  vol_nonneg (Some (sqrt (Q2R (sample_var [0; 1 # 10; 3 # 10]%Q)))).
Proof.
  destruct (construct_key_metrics_volatilities sample_returns _ eq_refl) as (_ & H & _).
  apply (H 0%nat "A" _ [0; 1 # 10; 3 # 10]%Q); [reflexivity | reflexivity | cbn; lia].
Defined.

(** The builder end to end on [sample_document]: the start is five years
    before the end, both tickers start in 2019, and the returns of
    [sample_prices] come out with a first row of zeros and the missing
    price forward-filled. *)
Example sample_run_returns :
  period_start "2024-04-01" "5y" = Ok "2019-04-01"
  /\ exists returns,
       sample_run = Ok returns
       /\ index returns = index sample_prices
       /\ head (rows returns) = Some (mkTimestamp 2024 1 31, [Fin 0; Fin 0])
       /\ (forall r, r ∈ rows returns -> Forall (fun x => is_nan x = false) (snd r)).
Proof.
  split; [reflexivity|].
  eexists. split; [vm_compute; reflexivity|]. split; [reflexivity|]. split; [reflexivity|].
  intros r Hr. repeat (apply elem_of_cons in Hr as [->|Hr]; [repeat constructor|]).
  inversion Hr.
Qed.

(** The year arithmetic of step 7 reads the period as a number followed
    by one unit character: the accepted texts that end in [mo] do not
    convert. *)
Example period_start_month_token :
  period_start "2024-04-01" "3mo"
  = Raise (ValueError [Lit "invalid literal for int() with base 10"]).
Proof. reflexivity. Qed.

(** On a table of strings that hold numbers the covariance is computed
    and the volatilities are not: the function raises the second of its
    two errors. *)
Example construct_key_metrics_numeric_strings :
  pandas_cov text_frame = Ok [[Fin (sample_var [1 # 10; 3 # 10]%Q)]]
  /\ construct_key_metrics text_frame = Raise (RuntimeError [Lit volatility_error_text]).
Proof. split; reflexivity. Qed.

(** * Further properties of the module *)

(** ** The duration guard of [backtest_resample] *)

(** X1: whatever the table, an empty one included, an int that is not
    positive, a float (even a whole one) and a bool make the function
    raise its "Duration must be a positive integer" error, carrying the
    offending value: the guard runs before the table is read. A positive
    int never gets this error, neither from the guard nor from a later
    stage. *)
Theorem backtest_resample_duration_guard (returns : DataFrame cell) (v : pyval) :
  ((exists n, v = PyInt n /\ n <= 0) \/ (exists f, v = PyFloat f) \/ (exists b, v = PyBool b) ->
   backtest_resample returns v = Raise (duration_error v))
  /\ (forall n, v = PyInt n -> 0 < n ->
        backtest_resample returns v <> Raise (duration_error v)).
Proof.
  split.
  - unfold backtest_resample.
    intros [(n & -> & Hn)|[(f & ->)|(b & ->)]].
    + by rewrite check_duration_nonpositive.
    + by rewrite check_duration_float.
    + by rewrite check_duration_bool.
  - intros n -> Hn.
    rewrite backtest_resample_unfold by lia.
    destruct (head (index returns)) as [first|] eqn:Hh; [|discriminate].
    destruct (last (index returns)) as [last_date|]; [|discriminate].
    cbv zeta. destruct (_ && _); [discriminate|].
    intros Hr. apply window_metrics_raises in Hr as [m [H1|H1]]; [discriminate..|].
    intros E. rewrite E in Hh. discriminate.
Qed.

Lemma backtest_resample_duration_guard_witness :
  backtest_resample (mkFrame [] []) (PyFloat (Fin 3)) = Raise (duration_error (PyFloat (Fin 3))).
Proof.
  apply (proj1 (backtest_resample_duration_guard (mkFrame [] []) (PyFloat (Fin 3)))).
  right. left. by eexists.
Defined.

(** ** What a validated parameter object guarantees *)

Lemma substring_whole (s : string) : String.substring 0 (String.length s) s = s.
Proof. induction s as [|c s IH]; [reflexivity|]. cbn. by rewrite IH. Qed.

Lemma parse_Y_spec (s rest : string) (y : Z) :
  parse_Y s = Some (y, rest) ->
  0 <= y <= 9999 /\ py_int (str_take 4 s) = Ok y /\ str_drop 4 s = rest.
Proof.
  unfold parse_Y.
  destruct s as [|a [|b [|c [|d s']]]]; try discriminate.
  destruct (digit a) as [x|] eqn:Ea; [|discriminate].
  destruct (digit b) as [x0|] eqn:Eb; [|discriminate].
  destruct (digit c) as [x1|] eqn:Ec; [|discriminate].
  destruct (digit d) as [x2|] eqn:Ed; [|discriminate].
  intros [= <- <-].
  pose proof (digit_range _ _ Ea). pose proof (digit_range _ _ Eb).
  pose proof (digit_range _ _ Ec). pose proof (digit_range _ _ Ed).
  split; [lia|]. split.
  - unfold str_take, py_int. cbn [String.substring].
    replace (String.substring 0 0 s') with EmptyString by (by destruct s').
    cbn [digits_value]. rewrite Ea, Eb, Ec, Ed. f_equal. lia.
  - unfold str_drop. cbn [String.length Nat.sub String.substring].
    rewrite Nat.sub_0_r. apply substring_whole.
Qed.

Lemma parse_m_dash_spec (s rest : string) (m : Z) :
  parse_m_dash s = Some (m, rest) -> 1 <= m <= 12.
Proof.
  unfold parse_m_dash.
  destruct s as [|a [|b s1]]; try discriminate.
  destruct (digit a) as [x|] eqn:Ea; [|by destruct s1].
  pose proof (digit_range _ _ Ea).
  assert (Hone : (if is_dash b && (1 <=? x) then Some (x, s1) else None) = Some (m, rest)
                 -> 1 <= m <= 12).
  { destruct (is_dash b); cbn [andb]; [|discriminate].
    destruct (Z.leb_spec 1 x); [|discriminate]. intros [= <- _]. lia. }
  destruct s1 as [|c s2]; [exact Hone|].
  destruct (digit b) as [y|] eqn:Eb; [|exact Hone].
  pose proof (digit_range _ _ Eb).
  destruct (is_dash c && (((x =? 1) && (y <=? 2)) || ((x =? 0) && (1 <=? y)))) eqn:E;
    [|exact Hone].
  intros [= <- _]. bool_prop. lia.
Qed.

Lemma parse_d_spec (s rest : string) (d : Z) :
  parse_d s = Some (d, rest) -> 1 <= d.
Proof.
  unfold parse_d.
  destruct s as [|a s1]; try discriminate.
  assert (Hone : match digit a with
                 | Some x => if 1 <=? x then Some (x, s1) else None
                 | None => None
                 end = Some (d, rest) -> 1 <= d).
  { destruct (digit a) as [x|]; [|discriminate].
    destruct (Z.leb_spec 1 x); [|discriminate]. intros [= <- _]. lia. }
  destruct s1 as [|b s2]; [exact Hone|].
  destruct (digit a) as [x|] eqn:Ea; destruct (digit b) as [y|] eqn:Eb; try exact Hone.
  - pose proof (digit_range _ _ Ea). pose proof (digit_range _ _ Eb).
    destruct (((x =? 3) && (y <=? 1)) || ((1 <=? x) && (x <=? 2)) || ((x =? 0) && (1 <=? y)))
      eqn:E; [|exact Hone].
    intros [= <- _]. bool_prop. lia.
  - destruct (is_space a && (1 <=? y)) eqn:E; [|exact Hone].
    intros [= <- _]. bool_prop. lia.
Qed.

(** A text that [strptime] accepts names a real date, and its first four
    characters read back as the year. *)
Lemma strptime_valid (s : string) (t : Timestamp) :
  strptime s = Some t ->
  is_valid_date t /\ py_int (str_take 4 s) = Ok (year t)
  /\ exists rest, str_drop 4 s = String "-"%char rest.
Proof.
  unfold strptime.
  destruct (parse_Y s) as [[y s0]|] eqn:EY; [|discriminate].
  destruct s0 as [|c s1]; [discriminate|].
  destruct (is_dash c) eqn:Ec; [|discriminate].
  destruct (parse_m_dash s1) as [[m s2]|] eqn:EM; [|discriminate].
  destruct (parse_d s2) as [[d s3]|] eqn:ED; [|discriminate].
  destruct s3; [|discriminate].
  destruct ((1 <=? y) && (d <=? days_in_month y m)) eqn:E; [|discriminate].
  intros [= <-]. bool_prop. destruct E as [Hy Hd].
  apply parse_Y_spec in EY as (Hy' & Hint & Hdrop).
  apply parse_m_dash_spec in EM. apply parse_d_spec in ED.
  unfold is_valid_date. cbn [year month day].
  split; [lia|]. split; [exact Hint|].
  exists s1. rewrite Hdrop. f_equal.
  unfold is_dash in Ec. by apply Ascii.eqb_eq in Ec.
Qed.

Lemma accepted_of_not_accepted_false (value : pyval) :
  not_accepted value = false -> is_accepted value.
Proof.
  destruct value; cbn [not_accepted]; try discriminate.
  rewrite negb_false_iff. intros Hex.
  apply existsb_exists in Hex as (token & Hin & Heq).
  apply String.eqb_eq in Heq as ->. exists token. split; [by apply list_elem_of_In | done].
Qed.

Lemma check_required_dict (d : gmap string pyval) :
  check_required required_keys (PyDict d) = Ok tt ->
  is_Some (d !! "sample_time_step") /\ is_Some (d !! "total_sample_period")
  /\ is_Some (d !! "sample_period_end").
Proof.
  unfold required_keys. cbn [check_required py_contains]. rewrite !bind_Ok.
  destruct (decide (is_Some (d !! "sample_time_step"))) as [H1|H1].
  2:{ rewrite (bool_decide_eq_false_2 _ H1). discriminate. }
  rewrite (bool_decide_eq_true_2 _ H1). cbn [negb].
  destruct (decide (is_Some (d !! "total_sample_period"))) as [H2|H2].
  2:{ rewrite (bool_decide_eq_false_2 _ H2). discriminate. }
  rewrite (bool_decide_eq_true_2 _ H2). cbn [negb].
  destruct (decide (is_Some (d !! "sample_period_end"))) as [H3|H3].
  2:{ rewrite (bool_decide_eq_false_2 _ H3). discriminate. }
  done.
Qed.

Lemma validate_parameters_dict (v : pyval) :
  validate_parameters v = Ok tt -> exists d, v = PyDict d.
Proof.
  unfold validate_parameters.
  destruct v; eauto;
    (destruct (check_required required_keys _); [rewrite bind_Ok | rewrite bind_Raise];
     discriminate).
Qed.

Lemma validate_parameters_inv (v : pyval) :
  validate_parameters v = Ok tt ->
  exists (d : gmap string pyval) (s : string) (t : Timestamp),
    v = PyDict d
    /\ d !! "sample_period_end" = Some (PyStr s)
    /\ strptime s = Some t /\ is_valid_date t
    /\ py_int (str_take 4 s) = Ok (year t)
    /\ is_Some (d !! "sample_time_step") /\ is_Some (d !! "total_sample_period")
    /\ (forall key value, d !! key = Some value -> key <> "sample_period_end" ->
                          is_accepted value).
Proof.
  intros Hv. destruct (validate_parameters_dict v Hv) as [d ->].
  assert (Hreq : check_required required_keys (PyDict d) = Ok tt).
  { unfold validate_parameters in Hv.
    destruct (check_required required_keys (PyDict d)) as [[]|]; [done|discriminate]. }
  apply check_required_dict in Hreq as (H1 & H2 & [e He]).
  assert (exists s, e = PyStr s) as [s ->].
  { unfold validate_parameters in Hv.
    rewrite check_required_present in Hv by eauto. rewrite bind_Ok in Hv.
    cbn [py_getitem_str] in Hv. rewrite He, bind_Ok in Hv.
    destruct e; try discriminate. eauto. }
  destruct (validate_parameters_cases d s He H1 H2)
    as [(_ & E)|[(_ & _ & E)|([t Ht] & Hok & _)]]; [congruence..|].
  destruct (strptime_valid s t Ht) as (Hvalid & Hint & _).
  exists d, s, t.
  split; [done|]. split; [done|]. split; [done|]. split; [done|]. split; [done|].
  split; [done|]. split; [done|].
  intros key value Hk Hne.
  destruct (not_accepted value) eqn:Hna.
  - exfalso. apply Hok. exists key, value. split; [done|]. split; [done|].
    by apply not_accepted_spec.
  - by apply accepted_of_not_accepted_false.
Qed.

(** X2: a parameter value that passes the validation is an object whose
    [sample_period_end] is a text naming a real calendar date (year 1 to
    9999) with a year that reads back from its first four characters,
    that holds the two other required keys, and all of whose other
    values are accepted period texts. *)
Theorem validate_parameters_guarantees (v : pyval) :
  validate_parameters v = Ok tt ->
  exists (d : gmap string pyval) (s : string) (t : Timestamp),
    v = PyDict d
    /\ d !! "sample_period_end" = Some (PyStr s)
    /\ strptime s = Some t /\ is_valid_date t
    /\ py_int (str_take 4 s) = Ok (year t)
    /\ is_Some (d !! "sample_time_step") /\ is_Some (d !! "total_sample_period")
    /\ (forall key value, d !! key = Some value -> key <> "sample_period_end" ->
                          is_accepted value).
Proof. apply validate_parameters_inv. Qed.

Lemma validate_parameters_guarantees_witness :
  exists (d : gmap string pyval) (s : string) (t : Timestamp),
    PyDict unpadded_parameters = PyDict d
    /\ d !! "sample_period_end" = Some (PyStr s)
    /\ strptime s = Some t /\ is_valid_date t.
Proof.
  destruct (validate_parameters_guarantees (PyDict unpadded_parameters))
    as (d & s & t & H1 & H2 & H3 & H4 & _).
  - vm_compute. reflexivity.
  - exists d, s, t. repeat split; try assumption; apply H4.
Defined.

(** ** The start of the sample period *)

Lemma period_start_month (s t : string) :
  t ∈ month_tokens -> period_start s t = Raise int_literal_error.
Proof.
  unfold month_tokens. intros H.
  repeat (apply elem_of_cons in H as [->|H]; [reflexivity|]). inversion H.
Qed.

Lemma period_start_unit (s t : string) (end_date : Timestamp) :
  strptime s = Some end_date -> t ∈ unit_tokens ->
  exists n, py_int (str_init t) = Ok n /\ 1 <= n <= 10
            /\ period_start s t = Ok (pretty.pretty (year end_date - n) +:+ str_drop 4 s).
Proof.
  intros Hs H. destruct (strptime_valid s end_date Hs) as (_ & Hint & _).
  unfold unit_tokens in H.
  repeat (apply elem_of_cons in H as [->|H];
          [eexists; split; [vm_compute; reflexivity|]; split; [lia|];
           unfold period_start;
           match goal with
           | |- context [py_int (str_init ?t)] =>
               let r := eval vm_compute in (py_int (str_init t)) in
               change (py_int (str_init t)) with r
           end;
           rewrite bind_Ok, Hint, bind_Ok; reflexivity|]).
  inversion H.
Qed.

(** X3: once the date has passed [strptime], the start of the period is
    decided by the period text alone. The three accepted texts that end
    in [mo] make [int] fail with [ValueError]; for the six others the
    text minus its last character is a number [n] from 1 to 10 and the
    start is the end with its year lowered by [n], whatever the unit:
    the start is the same with the unit character replaced by [y], so
    [5d] moves the start five years back, like [5y]. *)
Theorem period_start_by_token (s t : string) (end_date : Timestamp) :
  strptime s = Some end_date ->
  t ∈ accepted_interval_values ->
  (t ∈ month_tokens /\ period_start s t = Raise int_literal_error)
  \/ (t ∈ unit_tokens
      /\ exists n, py_int (str_init t) = Ok n /\ 1 <= n <= 10
           /\ period_start s t
              = Ok (pretty.pretty (year end_date - n) +:+ str_drop 4 s)
           /\ period_start s t = period_start s (str_init t +:+ "y")).
Proof.
  intros Hs H.
  assert (Hsplit : t ∈ month_tokens \/ t ∈ unit_tokens).
  { unfold accepted_interval_values, month_tokens, unit_tokens in *.
    repeat (apply elem_of_cons in H as [->|H]; [set_solver|]). inversion H. }
  destruct Hsplit as [Hm|Hu].
  - left. split; [done|]. by apply period_start_month.
  - right. split; [done|].
    destruct (period_start_unit s t end_date Hs Hu) as (n & Hn & Hr & Hp).
    exists n. split; [done|]. split; [done|]. split; [done|].
    clear Hn Hp. unfold unit_tokens in Hu.
    repeat (apply elem_of_cons in Hu as [->|Hu]; [reflexivity|]). inversion Hu.
Qed.

Lemma period_start_by_token_witness :
  period_start "2024-04-01" "5d" = Ok "2019-04-01"
  \/ period_start "2024-04-01" "5d" = Raise int_literal_error.
Proof.
  destruct (period_start_by_token "2024-04-01" "5d" (mkTimestamp 2024 4 1) eq_refl)
    as [[_ H]|[_ (n & Hn & _ & H & _)]].
  - unfold accepted_interval_values. set_solver.
  - right. exact H.
  - left. rewrite H. vm_compute in Hn. injection Hn as <-. reflexivity.
Defined.

(** ** The builder on a validated document *)

Lemma ticker_names_strings (names : list string) :
  ticker_names (map PyStr names) = Ok names.
Proof.
  induction names as [|n names IH]; [reflexivity|].
  cbn [map ticker_names]. by rewrite IH.
Qed.

Section BuilderOutcomes.

Variable earliest_year : pyval -> string -> string -> Z.
Variable download_adj_close : string -> string -> string -> DataFrame float.
Variable resample_ME_last : DataFrame float -> DataFrame float.
Variable pad : bool.

Local Abbreviation builder :=
  (retrieve_historical_returns earliest_year download_adj_close resample_ME_last pad).

(** The builder on a document that passes the schema check and the
    validation, from the start of the period on. *)
Lemma builder_after_validation
    (ETFInfo : gmap string pyval) (tickers : list pyval) (d : gmap string pyval) (t : string) :
  check_schema ETFInfo = Ok (tickers, PyDict d) ->
  validate_parameters (PyDict d) = Ok tt ->
  d !! "total_sample_period" = Some (PyStr t) ->
  exists (s : string) (end_date : Timestamp),
    d !! "sample_period_end" = Some (PyStr s) /\ strptime s = Some end_date
    /\ builder ETFInfo
       = (sample_period_start ← period_start s t;
          _ ← check_availability tickers
                (map (fun ticker => earliest_year ticker sample_period_start s) tickers)
                sample_period_start;
          names ← ticker_names tickers;
          Ok (returns_from_prices resample_ME_last pad
                (download_adj_close (String.concat " " names) sample_period_start s))).
Proof.
  intros Hs Hv Ht.
  destruct (validate_parameters_inv _ Hv) as (d' & s & e & [= <-] & He & Hp & _).
  exists s, e. split; [done|]. split; [done|].
  rewrite (retrieve_historical_returns_stages _ _ _ _ _ _ _ s t Hs He Ht).
  by rewrite Hv, bind_Ok.
Qed.

(** X4: a document that passes every check of steps 3 to 6 but counts
    its period in months ([1mo], [3mo], [6mo]) makes the builder raise
    the [ValueError] of [int], whatever the price source would return:
    nothing is fetched. *)
Theorem builder_month_period_raises
    (ETFInfo : gmap string pyval) (tickers : list pyval) (d : gmap string pyval) (t : string) :
  check_schema ETFInfo = Ok (tickers, PyDict d) ->
  validate_parameters (PyDict d) = Ok tt ->
  d !! "total_sample_period" = Some (PyStr t) ->
  t ∈ month_tokens ->
  builder ETFInfo = Raise int_literal_error.
Proof.
  intros Hs Hv Ht Hm.
  destruct (builder_after_validation _ _ _ _ Hs Hv Ht) as (s & e & _ & _ & ->).
  by rewrite (period_start_month s t Hm).
Qed.

(** X5: a validated document with an empty ticker list and a period in
    years or days makes the builder raise the [ValueError] of [max] on
    an empty sequence. *)
Theorem builder_no_tickers_raises
    (ETFInfo : gmap string pyval) (d : gmap string pyval) (t : string) :
  check_schema ETFInfo = Ok ([], PyDict d) ->
  validate_parameters (PyDict d) = Ok tt ->
  d !! "total_sample_period" = Some (PyStr t) ->
  t ∈ unit_tokens ->
  builder ETFInfo = Raise empty_max_error.
Proof.
  intros Hs Hv Ht Hu.
  destruct (builder_after_validation _ _ _ _ Hs Hv Ht) as (s & e & _ & He & ->).
  destruct (period_start_unit s t e He Hu) as (n & _ & _ & ->).
  reflexivity.
Qed.

(** X6: on a validated document with a period in years or days whose
    tickers are texts, if the availability check passes the builder
    returns the returns of the table downloaded for the tickers joined
    by blanks, from the end date with its year lowered by the period to
    the end date. *)
Theorem builder_success
    (ETFInfo : gmap string pyval) (names : list string) (d : gmap string pyval)
    (s t : string) (end_date : Timestamp) (n : Z) :
  check_schema ETFInfo = Ok (map PyStr names, PyDict d) ->
  validate_parameters (PyDict d) = Ok tt ->
  d !! "sample_period_end" = Some (PyStr s) ->
  d !! "total_sample_period" = Some (PyStr t) ->
  strptime s = Some end_date ->
  t ∈ unit_tokens ->
  py_int (str_init t) = Ok n ->
  let start := pretty.pretty (year end_date - n) +:+ str_drop 4 s in
  check_availability (map PyStr names)
    (map (fun ticker => earliest_year ticker start s) (map PyStr names)) start = Ok tt ->
  builder ETFInfo
  = Ok (returns_from_prices resample_ME_last pad
          (download_adj_close (String.concat " " names) start s)).
Proof.
  intros Hs Hv He Ht Hp Hu Hn start Hav.
  destruct (builder_after_validation _ _ _ _ Hs Hv Ht) as (s' & e' & He' & _ & ->).
  assert (s' = s) as -> by congruence.
  destruct (period_start_unit s t end_date Hp Hu) as (n' & Hn' & _ & ->).
  assert (n' = n) as -> by congruence.
  rewrite bind_Ok. fold start. rewrite Hav, bind_Ok.
  by rewrite ticker_names_strings, bind_Ok.
Qed.

End BuilderOutcomes.

Lemma builder_month_period_raises_witness :
  retrieve_historical_returns (fun _ _ _ => 2019) (fun _ _ _ => sample_prices)
    (fun df => df) true month_period_document
  = Raise int_literal_error.
Proof.
  apply (builder_month_period_raises _ _ _ _ month_period_document
           [PyStr "A"; PyStr "B"] month_period_parameters "3mo").
  - vm_compute. reflexivity.
  - vm_compute. reflexivity.
  - vm_compute. reflexivity.
  - unfold month_tokens. set_solver.
Defined.

Lemma builder_no_tickers_raises_witness :
  retrieve_historical_returns (fun _ _ _ => 2019) (fun _ _ _ => sample_prices)
    (fun df => df) true no_ticker_document
  = Raise empty_max_error.
Proof.
  apply (builder_no_tickers_raises _ _ _ _ no_ticker_document year_period_parameters "5y").
  - vm_compute. reflexivity.
  - vm_compute. reflexivity.
  - vm_compute. reflexivity.
  - unfold unit_tokens. set_solver.
Defined.

Lemma builder_success_witness :
  sample_run = Ok (returns_from_prices (fun df => df) true sample_prices).
Proof.
  unfold sample_run.
  apply (builder_success (fun _ _ _ => 2019) (fun _ _ _ => sample_prices) (fun df => df) true
           sample_document ["A"; "B"] year_period_parameters "2024-04-01" "5y"
           (mkTimestamp 2024 4 1) 5).
  - vm_compute. reflexivity.
  - vm_compute. reflexivity.
  - vm_compute. reflexivity.
  - vm_compute. reflexivity.
  - reflexivity.
  - unfold unit_tokens. set_solver.
  - reflexivity.
  - reflexivity.
Defined.

(** ** Outcomes of the availability check *)

Lemma differing_tickers_sublist (requested : Z) (tickers : list pyval) (ys : list Z) :
  sublist (differing_tickers requested tickers ys) tickers.
Proof.
  unfold differing_tickers. revert ys.
  induction tickers as [|t tickers IH]; intros [|y ys]; cbn; try apply sublist_nil_l.
  destruct (negb (y =? requested)); cbn.
  - apply sublist_skip, IH.
  - apply sublist_cons, IH.
Qed.

Lemma differing_tickers_nonempty (requested y : Z) (tickers : list pyval) (ys : list Z) :
  length tickers = length ys -> y ∈ ys -> y <> requested ->
  differing_tickers requested tickers ys <> [].
Proof.
  unfold differing_tickers. revert ys.
  induction tickers as [|t tickers IH]; intros [|y0 ys] Hlen Hin Hne; try discriminate.
  - inversion Hin.
  - cbn. destruct (Z.eqb_spec y0 requested) as [->|Hy0]; cbn; [|discriminate].
    apply elem_of_cons in Hin as [->|Hin]; [done|].
    apply IH; [by injection Hlen | done | done].
Qed.

(** X7: with at least one ticker, one fetched year per ticker and a
    start text whose first four characters read as a year, the
    availability check has two outcomes only: it passes, or it raises
    its own error, and then the list in the message is not empty and is
    a sublist of the tickers (their order is kept, nothing else is
    named). *)
Theorem check_availability_outcomes
    (tickers : list pyval) (ys : list Z) (start : string) (requested : Z) :
  tickers <> [] ->
  length tickers = length ys ->
  py_int (str_take 4 start) = Ok requested ->
  check_availability tickers ys start = Ok tt
  \/ exists bad_etfs,
       check_availability tickers ys start = Raise (unavailable_error bad_etfs)
       /\ bad_etfs <> [] /\ sublist bad_etfs tickers.
Proof.
  intros Hne Hlen Hreq.
  assert (Hys : ys <> []) by (destruct ys, tickers; done).
  destruct (py_max_maximum ys Hys) as (hi & Hmax & [Hhin Hhi]).
  destruct (py_min_minimum ys Hys) as (lo & Hmin & _).
  unfold check_availability. rewrite Hmax, bind_Ok, Hmin, bind_Ok.
  destruct (hi =? lo); cbn [negb]; [left; reflexivity|].
  rewrite Hreq, !bind_Ok.
  destruct (Z.eqb_spec hi requested) as [->|Hhr]; cbn [negb]; [left; reflexivity|].
  right. exists (differing_tickers requested tickers ys).
  rewrite (collect_bad_range tickers ys start requested) by (try done; lia).
  rewrite bind_Ok, !drop_0. split; [reflexivity|]. split.
  - by apply (differing_tickers_nonempty requested hi).
  - apply differing_tickers_sublist.
Qed.

Lemma check_availability_outcomes_witness :
  check_availability [PyStr "XLC"; PyStr "XLY"] [2019; 2020] "2019-01-01" = Ok tt
  \/ exists bad_etfs,
       check_availability [PyStr "XLC"; PyStr "XLY"] [2019; 2020] "2019-01-01"
       = Raise (unavailable_error bad_etfs)
       /\ bad_etfs <> [] /\ sublist bad_etfs [PyStr "XLC"; PyStr "XLY"].
Proof.
  apply (check_availability_outcomes [PyStr "XLC"; PyStr "XLY"] [2019; 2020]
           "2019-01-01" 2019); [discriminate | reflexivity | reflexivity].
Defined.

(** ** The returns table against the price table *)

Lemma pct_rows_shape (prev : list float) (rs : list (Timestamp * list float))
    (i : nat) (t : Timestamp) (r : list float) :
  rs !! i = Some (t, r) ->
  exists r', pct_rows prev rs !! i = Some (t, r') /\ length r' = length r.
Proof.
  revert prev i. induction rs as [|[t0 r0] rs IH]; intros prev i Hi; [done|].
  destruct i as [|i]; cbn [pct_rows].
  - cbn in Hi. injection Hi as -> ->. eexists. split; [reflexivity|]. apply length_imap.
  - cbn in Hi. apply (IH r0 i Hi).
Qed.

Lemma ffill_rows_shape (prev : list float) (rs : list (Timestamp * list float))
    (i : nat) (t : Timestamp) (r : list float) :
  rs !! i = Some (t, r) ->
  exists r', ffill_rows prev rs !! i = Some (t, r') /\ length r' = length r
             /\ forall j x, r !! j = Some x -> is_nan x = false -> r' !! j = Some x.
Proof.
  revert prev i. induction rs as [|[t0 r0] rs IH]; intros prev i Hi; [done|].
  destruct i as [|i]; cbn [ffill_rows].
  - cbn in Hi. injection Hi as -> ->. eexists. split; [reflexivity|].
    split; [apply length_imap|].
    intros j x Hj Hx. rewrite list_lookup_imap, Hj. cbn. by rewrite Hx.
  - cbn in Hi. apply (IH _ i Hi).
Qed.

Lemma pct_rows_index (prev : list float) (rs : list (Timestamp * list float)) :
  map fst (pct_rows prev rs) = map fst rs.
Proof.
  revert prev. induction rs as [|[t r] rs IH]; intros prev; [done|].
  cbn [pct_rows map fst]. by rewrite IH.
Qed.

Lemma ffill_rows_index (prev : list float) (rs : list (Timestamp * list float)) :
  map fst (ffill_rows prev rs) = map fst rs.
Proof.
  revert prev. induction rs as [|[t r] rs IH]; intros prev; [done|].
  cbn [ffill_rows map fst]. by rewrite IH.
Qed.

(** The rows that [pct_change] divides: the price rows, forward-filled
    or not. *)
Lemma filled_rows_keep (pad : bool) (rs : list (Timestamp * list float))
    (i : nat) (t : Timestamp) (r : list float) :
  rs !! i = Some (t, r) ->
  exists r', (if pad then ffill_rows [] rs else rs) !! i = Some (t, r')
             /\ length r' = length r
             /\ forall j x, r !! j = Some x -> is_nan x = false -> r' !! j = Some x.
Proof.
  intros Hi. destruct pad.
  - by apply ffill_rows_shape.
  - exists r. by repeat split.
Qed.

(** X8: the returns table has the columns and the index of the
    resampled price table, and each of its rows is as wide as the price
    row of its date. *)
Theorem returns_from_prices_shape
    (resample_ME_last : DataFrame float -> DataFrame float) (pad : bool)
    (data : DataFrame float) :
  let prices := resample_ME_last data in
  let returns := returns_from_prices resample_ME_last pad data in
  columns returns = columns prices
  /\ index returns = index prices
  /\ (forall i t r, rows prices !! i = Some (t, r) ->
        exists r', rows returns !! i = Some (t, r') /\ length r' = length r).
Proof.
  intros prices returns. split; [reflexivity|]. split.
  - unfold returns, returns_from_prices, fillna0, pct_change, index. cbn [rows].
    trans (map fst (pct_rows [] (if pad then ffill_rows [] (rows prices) else rows prices))).
    + rewrite <- list_fmap_compose. apply list_fmap_ext. intros ? []. reflexivity.
    + rewrite pct_rows_index. destruct pad; [apply ffill_rows_index | reflexivity].
  - intros i t r Hi.
    destruct (filled_rows_keep pad _ i t r Hi) as (r1 & H1 & Hl1 & _).
    destruct (pct_rows_shape [] _ i t r1 H1) as (r2 & H2 & Hl2).
    exists (map fill0 r2). split.
    + unfold returns, returns_from_prices, fillna0, pct_change. cbn [rows].
      fold prices. rewrite list_lookup_fmap, H2. reflexivity.
    + rewrite length_map. lia.
Qed.

Lemma returns_from_prices_shape_witness :
  exists r', rows (returns_from_prices (fun df => df) true sample_prices) !! 1%nat
             = Some (mkTimestamp 2024 2 29, r') /\ length r' = 2%nat.
Proof.
  destruct (returns_from_prices_shape (fun df => df) true sample_prices) as (_ & _ & H).
  apply (H 1%nat (mkTimestamp 2024 2 29) [Fin 110; NaN]). reflexivity.
Defined.

(** ** The covariance matrix *)

Lemma Qmult_swap (x y : Q) : (x * y)%Q = (y * x)%Q.
Proof.
  destruct x, y. unfold Qmult. simpl. f_equal; [apply Z.mul_comm | apply Pos.mul_comm].
Qed.

Lemma sample_cov_swap (xs ys : list Q) :
  length xs = length ys -> sample_cov xs ys = sample_cov ys xs.
Proof.
  intros Hlen. unfold sample_cov, Qlen. rewrite Hlen. f_equal. f_equal.
  generalize (mean xs) (mean ys). intros mx my. clear Hlen.
  revert ys. induction xs as [|x xs IH]; intros [|y ys]; try reflexivity.
  cbn [zip_with]. by rewrite IH, Qmult_swap.
Qed.

Lemma both_defined_swap (xs ys : list float) :
  map fst (List.filter both_defined (zip ys xs)) = map snd (List.filter both_defined (zip xs ys))
  /\ map snd (List.filter both_defined (zip ys xs))
     = map fst (List.filter both_defined (zip xs ys)).
Proof.
  revert ys. induction xs as [|x xs IH]; intros [|y ys]; try (split; reflexivity).
  cbn [zip zip_with List.filter].
  assert (both_defined (y, x) = both_defined (x, y)) as ->
    by (unfold both_defined; cbn [fst snd]; apply andb_comm).
  destruct (IH ys) as [H1 H2].
  destruct (both_defined (x, y)); cbn [map fst snd]; by rewrite ?H1, ?H2.
Qed.

Lemma nancorr_swap (xs ys : list float) : nancorr xs ys = nancorr ys xs.
Proof.
  unfold nancorr. fold both_defined. cbv zeta.
  destruct (both_defined_swap xs ys) as [-> ->].
  destruct (finite (map fst (List.filter both_defined (zip xs ys)))) as [qx|] eqn:Ex;
    destruct (finite (map snd (List.filter both_defined (zip xs ys)))) as [qy|] eqn:Ey;
    try reflexivity.
  apply finite_length in Ex, Ey. rewrite length_map in Ex, Ey.
  assert (Hlen : length qx = length qy) by congruence.
  rewrite Hlen. destruct (2 <=? length qy)%nat; [|reflexivity].
  by rewrite (sample_cov_swap qx qy Hlen).
Qed.

Lemma np_cov_swap (xs ys : list float) :
  length xs = length ys -> np_cov xs ys = np_cov ys xs.
Proof.
  intros Hl. unfold np_cov.
  destruct (finite xs) as [qx|] eqn:Ex; destruct (finite ys) as [qy|] eqn:Ey;
    try reflexivity.
  apply finite_length in Ex, Ey.
  assert (Hlen : length qx = length qy) by congruence.
  rewrite Hlen. destruct (2 <=? length qy)%nat; [|reflexivity].
  by rewrite (sample_cov_swap qx qy Hlen).
Qed.

Lemma cov_columns_swap (masked : bool) (xs ys : list float) :
  length xs = length ys -> cov_columns masked xs ys = cov_columns masked ys xs.
Proof.
  intros Hl. destruct masked; cbn [cov_columns];
    [apply nancorr_swap | by apply np_cov_swap].
Qed.

Lemma length_float_column (df : DataFrame cell) (j : nat) :
  length (float_column df j) = length (rows df).
Proof. unfold float_column, column. by rewrite !length_map. Qed.

Lemma construct_key_metrics_covariance (returns : DataFrame cell) (m : RiskMetrics) :
  construct_key_metrics returns = Ok m ->
  metrics_covariance m
  = imap (fun i _ =>
            imap (fun j _ => cov_columns (has_nan returns)
                               (float_column returns i) (float_column returns j))
                 (columns returns))
         (columns returns).
Proof.
  unfold construct_key_metrics, construct_key_metrics_via, pandas_cov, pandas_std.
  destruct (all_convertible returns); [|discriminate].
  destruct (all_numeric returns); [|discriminate]. by intros [= <-].
Qed.

Lemma covariance_entry (returns : DataFrame cell) (m : RiskMetrics) (i j : nat) :
  construct_key_metrics returns = Ok m ->
  entry (metrics_covariance m) i j
  = if decide (i < length (columns returns) /\ j < length (columns returns))%nat
    then Some (cov_columns (has_nan returns)
                 (float_column returns i) (float_column returns j))
    else None.
Proof.
  intros Hm. rewrite (construct_key_metrics_covariance _ _ Hm). unfold entry.
  rewrite list_lookup_imap.
  destruct (columns returns !! i) as [ni|] eqn:Ei.
  - apply lookup_lt_Some in Ei as Hi. cbn. rewrite list_lookup_imap.
    destruct (columns returns !! j) as [nj|] eqn:Ej.
    + apply lookup_lt_Some in Ej as Hj. cbn. by rewrite decide_True.
    + apply lookup_ge_None in Ej. cbn. rewrite decide_False; [done | lia].
  - apply lookup_ge_None in Ei. cbn. rewrite decide_False; [done | lia].
Qed.

(** X10: when the function returns, the covariance matrix is square,
    one row and one column per column of the table, and symmetric: the
    entries at [(i, j)] and [(j, i)] are the same. *)
Theorem construct_key_metrics_covariance_symmetric
    (returns : DataFrame cell) (m : RiskMetrics) :
  construct_key_metrics returns = Ok m ->
  length (metrics_covariance m) = length (columns returns)
  /\ (forall i row, metrics_covariance m !! i = Some row ->
                    length row = length (columns returns))
  /\ (forall i j, entry (metrics_covariance m) i j = entry (metrics_covariance m) j i).
Proof.
  intros Hm. split; [|split].
  - rewrite (construct_key_metrics_covariance _ _ Hm). apply length_imap.
  - intros i row. rewrite (construct_key_metrics_covariance _ _ Hm).
    rewrite list_lookup_imap. destruct (columns returns !! i); [|discriminate].
    cbn. intros [= <-]. apply length_imap.
  - intros i j. rewrite !(covariance_entry _ _ _ _ Hm).
    destruct (decide (i < length (columns returns) /\ j < length (columns returns))%nat)
      as [[Hi Hj]|Hn].
    + rewrite decide_True by done.
      by rewrite cov_columns_swap by (by rewrite !length_float_column).
    + rewrite decide_False; [done|]. intros [? ?]. by apply Hn.
Qed.

Lemma construct_key_metrics_covariance_symmetric_witness :
  exists m, construct_key_metrics sample_returns = Ok m
            /\ entry (metrics_covariance m) 0 1 = entry (metrics_covariance m) 1 0.
Proof.
  eexists. split; [reflexivity|].
  apply (construct_key_metrics_covariance_symmetric sample_returns). reflexivity.
Defined.

(** ** The window as a prefix of the table *)

Lemma filter_bounds_take {A : Type} (rs : list (Timestamp * list A))
    (start_date label : Timestamp) :
  ascending (map fst rs) = true ->
  head (map fst rs) = Some start_date ->
  List.filter (fun r => ts_leb start_date (fst r) && ts_leb (fst r) label) rs
  = take (count_where (fun x => ts_leb x label) (map fst rs)) rs.
Proof.
  intros Hasc Hhead.
  pose proof (loc_slice_ascending (mkFrame [] rs) start_date label Hasc Hhead) as H1.
  unfold loc_slice in H1. cbn [index rows columns] in H1.
  rewrite !get_slice_bound_ascending in H1 by done. rewrite !bind_Ok in H1.
  unfold mret, result_ret in H1. injection H1 as H1.
  unfold index in H1. cbn [rows] in H1. rewrite <- H1.
  assert (Hzero : count_where (fun x => ts_ltb x start_date) (map fst rs) = 0%nat).
  { destruct rs as [|r rs]; [done|]. cbn [map head] in Hhead. injection Hhead as Hr.
    cbn [map] in Hasc. apply ascending_cons in Hasc as [_ Hall].
    apply count_where_none. constructor.
    - rewrite Hr. unfold ts_ltb. apply Z.ltb_irrefl.
    - eapply Forall_impl; [exact Hall|]. rewrite Hr. unfold date_le, ts_ltb.
      intros z Hz. apply Z.ltb_ge. lia. }
  rewrite Hzero. unfold py_slice. by rewrite Nat.sub_0_r, drop_0.
Qed.

Lemma count_where_elem (label : Timestamp) (idx : list Timestamp) :
  label ∈ idx -> (1 <= count_where (fun x => ts_leb x label) idx <= length idx)%nat.
Proof.
  intros Hin. unfold count_where. split; [|apply List.filter_length_le].
  induction Hin as [label idx|label y idx Hin IH]; cbn [List.filter].
  - unfold ts_leb at 1. rewrite Z.leb_refl. cbn [length]. lia.
  - destruct (ts_leb y label); cbn [length]; lia.
Qed.

Lemma all_numeric_take (cols cols' : list string) (rs : list (Timestamp * list cell)) (k : nat) :
  all_numeric (mkFrame cols rs) = true -> all_numeric (mkFrame cols' (take k rs)) = true.
Proof.
  unfold all_numeric. cbn [rows]. rewrite !forallb_forall.
  intros H r Hr. apply H. apply list_elem_of_In. apply list_elem_of_In in Hr.
  apply elem_of_take in Hr as (i & Hi & _). by eapply list_elem_of_lookup_2.
Qed.

Lemma all_numeric_convertible (returns : DataFrame cell) :
  all_numeric returns = true -> all_convertible returns = true.
Proof.
  unfold all_numeric, all_convertible. rewrite !forallb_forall.
  intros H r Hr. specialize (H r Hr). rewrite forallb_forall in *.
  intros c Hc. specialize (H c Hc). by destruct c.
Qed.

Lemma construct_key_metrics_numeric (returns : DataFrame cell) :
  all_numeric returns = true ->
  exists m, construct_key_metrics returns = Ok m /\ metrics_returns m = returns.
Proof.
  intros H. unfold construct_key_metrics, construct_key_metrics_via, pandas_cov, pandas_std.
  rewrite (all_numeric_convertible _ H), H. eexists. split; reflexivity.
Qed.

(** On an ascending index the window is the table cut after the last
    row dated [closest_date], the first date nearest to the end date. *)
Lemma window_metrics_prefix (returns : DataFrame cell) (start_date end_date : Timestamp) :
  ascending (index returns) = true ->
  head (index returns) = Some start_date ->
  exists (closest_date : Timestamp) (k : nat),
    first_minimum (fun x => abs_diff x end_date) (index returns) closest_date
    /\ k = count_where (fun x => ts_leb x closest_date) (index returns)
    /\ (1 <= k <= length (rows returns))%nat
    /\ window_metrics returns start_date end_date
       = construct_key_metrics (mkFrame (columns returns) (take k (rows returns))).
Proof.
  intros Hasc Hhead.
  destruct (window_metrics_ascending returns start_date end_date Hasc Hhead)
    as (closest_date & Hmin & Hres).
  exists closest_date, (count_where (fun x => ts_leb x closest_date) (index returns)).
  split; [exact Hmin|]. split; [reflexivity|]. split.
  - destruct (first_minimum_elem _ _ _ Hmin) as [Hin _].
    apply count_where_elem in Hin. unfold index in *. by rewrite length_map in Hin.
  - rewrite Hres. unfold index in *. by rewrite filter_bounds_take.
Qed.

(** X12: on an ascending index and for a positive int duration, a
    result of the function is computed on a prefix of the table: the
    returned table has the columns of the input and its rows are the
    first [k] rows of the input for some [k] from 1 to the number of
    rows, so the first row is always kept. *)
Theorem backtest_resample_prefix (returns : DataFrame cell) (d : Z) (m : RiskMetrics) :
  ascending (index returns) = true ->
  0 < d ->
  backtest_resample returns (PyInt d) = Ok m ->
  columns (metrics_returns m) = columns returns
  /\ exists k : nat,
       (1 <= k <= length (rows returns))%nat
       /\ rows (metrics_returns m) = take k (rows returns)
       /\ head (rows (metrics_returns m)) = head (rows returns).
Proof.
  intros Hasc Hd Hm. rewrite backtest_resample_unfold in Hm by done.
  destruct (head (index returns)) as [start_date|] eqn:Hhead; [|discriminate].
  destruct (last (index returns)) as [last_date|]; [|discriminate].
  cbv zeta in Hm. destruct (_ && _); [discriminate|].
  destruct (window_metrics_prefix returns start_date
              (add_relativedelta start_date (relativedelta_months d)) Hasc Hhead)
    as (closest_date & k & _ & _ & Hk & Hres).
  rewrite Hres in Hm. apply construct_key_metrics_Ok in Hm as [-> _].
  cbn [columns rows]. split; [reflexivity|]. exists k. split; [exact Hk|].
  split; [reflexivity|]. destruct (rows returns), k; try reflexivity; lia.
Qed.

Lemma backtest_resample_prefix_witness :
  exists m, backtest_resample sample_returns (PyInt 1) = Ok m
            /\ exists k : nat, (1 <= k <= 3)%nat
                               /\ rows (metrics_returns m) = take k (rows sample_returns).
Proof.
  eexists. split; [reflexivity|].
  destruct (backtest_resample_prefix sample_returns 1 _ eq_refl ltac:(lia) eq_refl)
    as (_ & k & Hk & Hrows & _).
  exists k. split; [exact Hk | exact Hrows].
Defined.

(** X13: on a table of numbers with a non-empty ascending index, a
    positive int duration that passes the length check always yields a
    result; no other error can stop the function. *)
Theorem backtest_resample_succeeds
    (returns : DataFrame cell) (d : Z) (start_date last_date : Timestamp) :
  all_numeric returns = true ->
  head (index returns) = Some start_date ->
  last (index returns) = Some last_date ->
  ascending (index returns) = true ->
  0 < d ->
  ts_ltb last_date (add_relativedelta start_date (relativedelta_months d))
    && negb (d =? Z.of_nat (length (index returns))) = false ->
  exists m, backtest_resample returns (PyInt d) = Ok m.
Proof.
  intros Hnum Hhead Hlast Hasc Hd Hpass.
  rewrite backtest_resample_unfold by done. rewrite Hhead, Hlast. cbv zeta. rewrite Hpass.
  destruct (window_metrics_prefix returns start_date
              (add_relativedelta start_date (relativedelta_months d)) Hasc Hhead)
    as (closest_date & k & _ & _ & _ & ->).
  destruct (construct_key_metrics_numeric
              (mkFrame (columns returns) (take k (rows returns)))) as (m & Hm & _).
  - destruct returns as [cols rs]. by apply (all_numeric_take cols).
  - eauto.
Qed.

Lemma backtest_resample_succeeds_witness :
  exists m, backtest_resample sample_returns (PyInt 2) = Ok m.
Proof.
  apply (backtest_resample_succeeds sample_returns 2
           (mkTimestamp 2024 1 31) (mkTimestamp 2024 3 31));
    reflexivity.
Defined.

(** ** Durations on a table of consecutive month ends *)

Lemma month_number_split (t : Timestamp) :
  1 <= month t <= 12 ->
  month_number t / 12 = year t /\ month_number t mod 12 + 1 = month t.
Proof. intros H. unfold month_number. Z.div_mod_to_equations. lia. Qed.

Lemma month_start_at_number (t : Timestamp) :
  1 <= month t <= 12 -> month_start (year t) (month t) = month_start_at (month_number t).
Proof.
  intros H. unfold month_start_at. by destruct (month_number_split t H) as [-> ->].
Qed.

Lemma month_start_at_succ (k : Z) :
  month_start_at (k + 1) = month_start_at k + days_in_month (k / 12) (k mod 12 + 1).
Proof.
  unfold month_start_at.
  rewrite (month_start_succ (k / 12) (k mod 12 + 1)) by (Z.div_mod_to_equations; lia).
  destruct (Z.eqb_spec (k mod 12 + 1) 12) as [E|E].
  - replace ((k + 1) / 12) with (k / 12 + 1) by (Z.div_mod_to_equations; lia).
    replace ((k + 1) mod 12 + 1) with 1 by (Z.div_mod_to_equations; lia). reflexivity.
  - replace ((k + 1) / 12) with (k / 12) by (Z.div_mod_to_equations; lia).
    replace ((k + 1) mod 12) with (k mod 12 + 1) by (Z.div_mod_to_equations; lia).
    reflexivity.
Qed.

Lemma month_start_at_grows (k n : Z) :
  0 <= n -> month_start_at k + 28 * n <= month_start_at (k + n).
Proof.
  intros Hn. revert n Hn. apply natlike_ind.
  - replace (k + 0) with k by lia. lia.
  - intros n Hn IH. replace (k + Z.succ n) with (k + n + 1) by lia.
    rewrite month_start_at_succ.
    pose proof (days_in_month_pos ((k + n) / 12) ((k + n) mod 12 + 1)). lia.
Qed.

Lemma month_end_at (t : Timestamp) :
  is_month_end t = true -> toordinal t = month_start_at (month_number t + 1).
Proof.
  intros H. destruct (month_end_ordinal t H) as [Hm ->].
  rewrite month_start_at_succ. destruct (month_number_split t Hm) as [-> ->].
  by rewrite month_start_at_number.
Qed.

Lemma add_relativedelta_day (t : Timestamp) (delta : relativedelta) :
  day (add_relativedelta t delta)
  = Z.min (days_in_month (year (add_relativedelta t delta))
                         (month (add_relativedelta t delta)))
          (day t).
Proof.
  unfold add_relativedelta.
  destruct (months delta =? 0); [reflexivity|].
  destruct (12 <? month t + months delta); [reflexivity|].
  destruct (month t + months delta <? 1); reflexivity.
Qed.

(** The nominal end date, [d] months after a month end: it lies in the
    month reached, on one of its last four days at most. *)
Lemma nominal_end_at (start_date : Timestamp) (d : Z) :
  is_month_end start_date = true -> 0 < d ->
  let end_date := add_relativedelta start_date (relativedelta_months d) in
  let k := month_number start_date + d in
  exists e, toordinal end_date = month_start_at k + e
            /\ 28 <= e <= month_start_at (k + 1) - month_start_at k
            /\ month_start_at (k + 1) - month_start_at k <= 31.
Proof.
  intros Hme Hd end_date k.
  destruct (month_end_ordinal _ Hme) as [Hm _].
  assert (Hday : day start_date = days_in_month (year start_date) (month start_date)).
  { unfold is_month_end in Hme. apply andb_prop in Hme as [_ H]. by apply Z.eqb_eq in H. }
  pose proof (days_in_month_pos (year start_date) (month start_date)) as Hs.
  destruct (add_months_number start_date d Hd Hm ltac:(lia)) as (Hnum & Hem & _).
  fold end_date in Hnum, Hem.
  pose proof (add_relativedelta_day start_date (relativedelta_months d)) as He.
  fold end_date in He.
  pose proof (days_in_month_pos (year end_date) (month end_date)) as Hdim.
  assert (Hk : month_number end_date = k) by exact Hnum.
  exists (day end_date). split.
  - unfold toordinal. fold (month_start (year end_date) (month end_date)).
    by rewrite (month_start_at_number end_date Hem), Hk.
  - rewrite month_start_at_succ. rewrite <- Hk.
    destruct (month_number_split end_date Hem) as [-> ->]. lia.
Qed.

Lemma consecutive_month_ends_lookup (rest : list Timestamp) (a x : Timestamp) (i : nat) :
  forallb is_month_end (a :: rest) = true -> consecutive_months (a :: rest) = true ->
  (a :: rest) !! i = Some x ->
  month_number x = month_number a + Z.of_nat i /\ is_month_end x = true.
Proof.
  revert a i. induction rest as [|b r IH]; intros a i Hme Hc Hi.
  - destruct i; [|done]. cbn in Hi. injection Hi as <-.
    cbn [forallb] in Hme. apply andb_prop in Hme as [Ha _]. split; [lia | exact Ha].
  - cbn [forallb] in Hme. apply andb_prop in Hme as [Ha Hrest].
    destruct i as [|i].
    + cbn in Hi. injection Hi as <-. split; [lia | exact Ha].
    + cbn [consecutive_months] in Hc. apply andb_prop in Hc as [Hab Hc].
      assert (Hb : is_month_end b = true)
        by (cbn [forallb] in Hrest; by apply andb_prop in Hrest as [? _]).
      destruct (next_month_end a b Ha Hb Hab) as [_ Hnum].
      cbn in Hi. destruct (IH b i Hrest Hc Hi) as [Hn Hx]. split; [lia | exact Hx].
Qed.

Lemma count_where_sorted (idx : list Timestamp) (i : nat) (x : Timestamp) :
  StronglySorted date_lt idx -> idx !! i = Some x ->
  count_where (fun y => ts_leb y x) idx = S i.
Proof.
  intros Hs. revert i. induction Hs as [|a rest Hs IH Hall]; intros i Hi; [done|].
  unfold count_where in *. cbn [List.filter]. unfold ts_leb at 1.
  destruct i as [|i].
  - cbn in Hi. injection Hi as <-. rewrite Z.leb_refl. cbn [length]. f_equal.
    apply (count_where_none (fun y => ts_leb y a)).
    eapply Forall_impl; [exact Hall|]. unfold date_lt, ts_leb. intros z Hz.
    apply Z.leb_gt. lia.
  - cbn in Hi. rewrite Forall_forall in Hall.
    assert (Hax : date_lt a x) by (apply Hall; by eapply list_elem_of_lookup_2).
    unfold date_lt in Hax. destruct (Z.leb_spec (toordinal a) (toordinal x)); [|lia].
    cbn [length]. f_equal. by apply IH.
Qed.

(** The facts about a table of [N] consecutive month ends that decide
    the outcome for a duration [d]: where the rows and the nominal end
    date lie on the scale of month starts. *)
Lemma month_end_table_scale (idx : list Timestamp) (start_date : Timestamp) (d : Z) :
  consecutive_month_ends idx = true -> head idx = Some start_date -> 0 < d ->
  let k0 := month_number start_date in
  let end_date := add_relativedelta start_date (relativedelta_months d) in
  (forall i x, idx !! i = Some x -> toordinal x = month_start_at (k0 + Z.of_nat i + 1))
  /\ exists e, toordinal end_date = month_start_at (k0 + d) + e
               /\ 28 <= e <= month_start_at (k0 + d + 1) - month_start_at (k0 + d)
               /\ month_start_at (k0 + d + 1) - month_start_at (k0 + d) <= 31.
Proof.
  intros Hcme Hhead Hd k0 end_date.
  unfold consecutive_month_ends in Hcme. apply andb_prop in Hcme as [Hme Hc].
  destruct idx as [|a rest]; [discriminate|]. cbn in Hhead. injection Hhead as ->.
  split.
  - intros i x Hi.
    destruct (consecutive_month_ends_lookup rest start_date x i Hme Hc Hi) as [Hn Hx].
    rewrite (month_end_at x Hx), Hn. reflexivity.
  - apply nominal_end_at; [|done].
    cbn [forallb] in Hme. by apply andb_prop in Hme as [? _].
Qed.

Lemma month_end_length_check (returns : DataFrame cell) (d : Z) :
  rows returns <> [] ->
  consecutive_month_ends (index returns) = true ->
  0 < d ->
  backtest_resample returns (PyInt d) = Raise exceeds_error
  <-> Z.of_nat (length (rows returns)) < d.
Proof.
  intros Hne Hcme Hd.
  destruct (head_index_nonempty returns Hne) as (start_date & last_date & Hhead & Hlast).
  assert (Hlen : length (index returns) = length (rows returns))
    by (unfold index; apply length_map).
  destruct (month_end_table_scale _ _ d Hcme Hhead Hd) as (Hrow & e & He & Hb & _).
  assert (Hl : toordinal last_date
               = month_start_at (month_number start_date + Z.of_nat (length (rows returns)))).
  { rewrite last_lookup in Hlast. rewrite (Hrow _ _ Hlast), Hlen. f_equal.
    destruct (rows returns); [done | cbn [length]; lia]. }
  rewrite backtest_resample_unfold by done. rewrite Hhead, Hlast. cbv zeta.
  rewrite Hlen. unfold ts_ltb. rewrite He, Hl.
  set (N := Z.of_nat (length (rows returns))) in *.
  set (k0 := month_number start_date) in *.
  assert (Hwin : forall t, window_metrics returns start_date t <> Raise exceeds_error).
  { intros t Hr.
    apply window_metrics_raises in Hr as [m [H1|H1]]; [discriminate..|].
    intros E. rewrite E in Hhead. discriminate. }
  destruct (Z.lt_trichotomy d N) as [Hlt|[->|Hgt]].
  - pose proof (month_start_at_grows (k0 + d + 1) (N - d - 1) ltac:(lia)) as Hg.
    replace (k0 + d + 1 + (N - d - 1)) with (k0 + N) in Hg by lia.
    destruct (Z.ltb_spec (month_start_at (k0 + N)) (month_start_at (k0 + d) + e)); [lia|].
    cbn [andb]. split; [intros Hr; by apply Hwin in Hr | lia].
  - rewrite Z.eqb_refl. cbn [negb]. rewrite andb_false_r.
    split; [intros Hr; by apply Hwin in Hr | lia].
  - pose proof (month_start_at_grows (k0 + N) (d - N) ltac:(lia)) as Hg.
    replace (k0 + N + (d - N)) with (k0 + d) in Hg by lia.
    destruct (Z.ltb_spec (month_start_at (k0 + N)) (month_start_at (k0 + d) + e)); [|lia].
    destruct (Z.eqb_spec d N); [lia|]. cbn [andb negb]. split; [lia | reflexivity].
Qed.

(** X14: on a table of [N] consecutive month ends the length check
    rejects a positive int duration exactly when it is larger than
    [N]: every duration from 1 to [N] is accepted. *)
Theorem backtest_resample_month_end_durations (returns : DataFrame cell) (d : Z) :
  rows returns <> [] ->
  consecutive_month_ends (index returns) = true ->
  0 < d ->
  backtest_resample returns (PyInt d) = Raise exceeds_error
  <-> Z.of_nat (length (rows returns)) < d.
Proof. apply month_end_length_check. Qed.

Lemma backtest_resample_month_end_durations_witness :
  backtest_resample sample_returns (PyInt 4) = Raise exceeds_error.
Proof.
  apply (backtest_resample_month_end_durations sample_returns 4);
    [discriminate | reflexivity | lia | cbn; lia].
Defined.

(** X15: on a table of [N] consecutive month ends, a duration [d] with
    [0 < d < N] selects the month end [d] months after the first one:
    the metrics are those of the first [d + 1] rows, the first row and
    [d] more. *)
Theorem backtest_resample_month_end_window (returns : DataFrame cell) (d : Z) :
  consecutive_month_ends (index returns) = true ->
  0 < d < Z.of_nat (length (rows returns)) ->
  backtest_resample returns (PyInt d)
  = construct_key_metrics
      (mkFrame (columns returns) (take (Z.to_nat d + 1) (rows returns))).
Proof.
  intros Hcme [Hd HdN].
  assert (Hne : rows returns <> []) by (destruct (rows returns); [cbn in HdN; lia | done]).
  destruct (head_index_nonempty returns Hne) as (start_date & last_date & Hhead & Hlast).
  assert (Hlen : length (index returns) = length (rows returns))
    by (unfold index; apply length_map).
  assert (Hnot : backtest_resample returns (PyInt d) <> Raise exceeds_error).
  { intros Hr. apply month_end_length_check in Hr; [lia|done..]. }
  rewrite backtest_resample_unfold in Hnot |- * by done.
  rewrite Hhead, Hlast in Hnot |- *. cbv zeta in Hnot |- *.
  destruct (_ && _); [done|]. clear Hnot.
  set (end_date := add_relativedelta start_date (relativedelta_months d)).
  pose proof Hcme as Hcme'.
  unfold consecutive_month_ends in Hcme'. apply andb_prop in Hcme' as [Hme Hc].
  pose proof (consecutive_month_ends_sorted _ Hme Hc) as Hsorted.
  destruct (window_metrics_prefix returns start_date end_date
              (sorted_ascending _ Hsorted) Hhead)
    as (closest_date & k & Hmin & Hk & _ & ->).
  f_equal. f_equal. f_equal. rewrite Hk. clear Hk k.
  destruct (first_minimum_elem _ _ _ Hmin) as [Hin Hle].
  apply list_elem_of_lookup_1 in Hin as [i Hi].
  rewrite (count_where_sorted _ i closest_date Hsorted Hi).
  destruct (lookup_lt_is_Some_2 (index returns) (Z.to_nat d) ltac:(lia)) as [target Ht].
  specialize (Hle target ltac:(by eapply list_elem_of_lookup_2)).
  destruct (month_end_table_scale _ _ d Hcme Hhead Hd) as (Hrow & e & He & Hb & Hw).
  fold end_date in He.
  unfold abs_diff in Hle. rewrite (Hrow _ _ Hi), (Hrow _ _ Ht), He in Hle.
  rewrite Z2Nat.id in Hle by lia.
  set (k0 := month_number start_date) in *.
  destruct (Nat.lt_trichotomy i (Z.to_nat d)) as [Hlt|[->|Hgt]]; [exfalso| lia |exfalso].
  - pose proof (month_start_at_grows (k0 + Z.of_nat i + 1) (d - Z.of_nat i - 1) ltac:(lia))
      as Hg.
    replace (k0 + Z.of_nat i + 1 + (d - Z.of_nat i - 1)) with (k0 + d) in Hg by lia. lia.
  - pose proof (month_start_at_grows (k0 + d + 1) (Z.of_nat i - d) ltac:(lia)) as Hg.
    replace (k0 + d + 1 + (Z.of_nat i - d)) with (k0 + Z.of_nat i + 1) in Hg by lia. lia.
Qed.

Lemma backtest_resample_month_end_window_witness :
  backtest_resample sample_returns (PyInt 1)
  = construct_key_metrics (mkFrame (columns sample_returns) (take 2 (rows sample_returns))).
Proof.
  apply (backtest_resample_month_end_window sample_returns 1); [reflexivity | cbn; lia].
Defined.

(** ** The requested start year *)

Lemma digit_pretty_char (k : N) :
  (k < 10)%N -> digit (pretty.pretty_N_char k) = Some (Z.of_N k).
Proof.
  intros Hk.
  assert (Hc : (k = 0 \/ k = 1 \/ k = 2 \/ k = 3 \/ k = 4 \/ k = 5 \/ k = 6 \/ k = 7
                \/ k = 8 \/ k = 9)%N) by lia.
  destruct Hc as [->|[->|[->|[->|[->|[->|[->|[->|[->| ->]]]]]]]]]; reflexivity.
Qed.

(** The decimal text of a number of four digits. *)
Lemma pretty_four_digits (x : Z) :
  1000 <= x <= 9999 ->
  exists c3 c2 c1 c0,
    pretty.pretty x = String c3 (String c2 (String c1 (String c0 EmptyString)))
    /\ digit c3 = Some (x / 1000) /\ digit c2 = Some (x / 100 mod 10)
    /\ digit c1 = Some (x / 10 mod 10) /\ digit c0 = Some (x mod 10).
Proof.
  intros Hx. destruct x as [|p|p]; try lia.
  unfold pretty.pretty, pretty.pretty_Z. unfold pretty.pretty_positive.
  unfold pretty.pretty, pretty.pretty_N.
  rewrite decide_False by done.
  set (n := N.pos p). assert (Hn : (1000 <= n <= 9999)%N) by (unfold n; lia).
  assert (Hz : Z.pos p = Z.of_N n) by reflexivity. rewrite Hz. clearbody n. clear Hz Hx p.
  rewrite pretty.pretty_N_go_step by lia.
  rewrite pretty.pretty_N_go_step by (apply N.div_str_pos; lia).
  rewrite pretty.pretty_N_go_step
    by (apply N.div_str_pos; split; [lia|]; apply N.div_le_lower_bound; lia).
  rewrite pretty.pretty_N_go_step
    by (apply N.div_str_pos; split; [lia|]; apply N.div_le_lower_bound; [lia|];
        apply N.div_le_lower_bound; lia).
  assert (H0 : N.div (N.div (N.div (N.div n 10) 10) 10) 10 = 0%N).
  { apply N.div_small. apply N.Div0.div_lt_upper_bound.
    apply N.Div0.div_lt_upper_bound. apply N.Div0.div_lt_upper_bound. lia. }
  rewrite H0, pretty.pretty_N_go_0.
  do 4 eexists. split; [reflexivity|].
  rewrite !digit_pretty_char by (apply N.mod_lt; lia).
  rewrite !N2Z.inj_mod, !N2Z.inj_div.
  change (Z.of_N 10) with 10.
  repeat split; f_equal; Z.div_mod_to_equations; lia.
Qed.

(** The start text of a period that leaves a year of four digits, and
    what its first four characters read as. *)
Lemma period_start_four_digits (s t : string) (end_date : Timestamp) (n : Z) :
  strptime s = Some end_date ->
  t ∈ unit_tokens ->
  py_int (str_init t) = Ok n ->
  1000 <= year end_date - n ->
  let start := pretty.pretty (year end_date - n) +:+ str_drop 4 s in
  period_start s t = Ok start
  /\ py_int (str_take 4 start) = Ok (year end_date - n)
  /\ str_drop 4 start = str_drop 4 s.
Proof.
  intros Hs Hu Hn Hy start. unfold start. clear start.
  destruct (strptime_valid s end_date Hs) as ((Hyear & _) & _ & _).
  destruct (period_start_unit s t end_date Hs Hu) as (n' & Hn' & Hr & Hp).
  assert (n' = n) as -> by congruence.
  destruct (pretty_four_digits (year end_date - n) ltac:(lia))
    as (c3 & c2 & c1 & c0 & Hpretty & H3 & H2 & H1 & H0).
  split; [exact Hp|]. rewrite Hpretty.
  change (String c3 (String c2 (String c1 (String c0 EmptyString))) +:+ str_drop 4 s)
    with (String c3 (String c2 (String c1 (String c0 (str_drop 4 s))))).
  split.
  - unfold str_take, py_int. cbn [String.substring].
    replace (String.substring 0 0 (str_drop 4 s)) with EmptyString
      by (by destruct (str_drop 4 s)).
    cbn [digits_value]. rewrite H3, H2, H1, H0. f_equal.
    Z.div_mod_to_equations. lia.
  - unfold str_drop at 1. cbn [String.length Nat.sub String.substring].
    rewrite Nat.sub_0_r. apply substring_whole.
Qed.

(** X16: for a date that [strptime] accepts and a period in years or
    days that leaves a year of four digits, the start text is that year
    followed by the month and day part of the end text, and the year
    that the availability check reads back from its first four
    characters is the end year lowered by the period. *)
Theorem period_start_year_read_back (s t : string) (end_date : Timestamp) (n : Z) :
  strptime s = Some end_date ->
  t ∈ unit_tokens ->
  py_int (str_init t) = Ok n ->
  1000 <= year end_date - n ->
  exists start,
    period_start s t = Ok start
    /\ py_int (str_take 4 start) = Ok (year end_date - n)
    /\ str_drop 4 start = str_drop 4 s.
Proof.
  intros Hs Hu Hn Hy. eexists. by apply (period_start_four_digits s t end_date n).
Qed.

Lemma period_start_year_read_back_witness :
  exists start,
    period_start "2024-04-01" "5y" = Ok start
    /\ py_int (str_take 4 start) = Ok (2024 - 5)
    /\ str_drop 4 start = str_drop 4 "2024-04-01".
Proof.
  apply (period_start_year_read_back "2024-04-01" "5y" (mkTimestamp 2024 4 1) 5).
  - reflexivity.
  - unfold unit_tokens. set_solver.
  - reflexivity.
  - cbn. lia.
Defined.

(** ** The [KeyError]s of the builder *)

Lemma check_required_first_missing (d : gmap string pyval) :
  check_required required_keys (PyDict d)
  = match first_missing d with
    | Some key => Raise (missing_key_error key)
    | None => Ok tt
    end.
Proof.
  unfold first_missing, required_keys. cbn [check_required py_contains List.find].
  rewrite !bind_Ok.
  destruct (negb (bool_decide (is_Some (d !! "sample_time_step")))); [reflexivity|].
  destruct (negb (bool_decide (is_Some (d !! "total_sample_period")))); [reflexivity|].
  destruct (negb (bool_decide (is_Some (d !! "sample_period_end")))); reflexivity.
Qed.

Lemma first_missing_Some (d : gmap string pyval) (key : string) :
  first_missing d = Some key -> key ∈ required_keys /\ d !! key = None.
Proof.
  unfold first_missing. intros H. apply List.find_some in H as [Hin Hk].
  split; [by apply list_elem_of_In|].
  apply negb_true_iff, bool_decide_eq_false in Hk.
  destruct (d !! key); [exfalso; apply Hk; eauto | reflexivity].
Qed.

Section BuilderKeyErrors.

Variable earliest_year : pyval -> string -> string -> Z.
Variable download_adj_close : string -> string -> string -> DataFrame float.
Variable resample_ME_last : DataFrame float -> DataFrame float.
Variable pad : bool.

Local Abbreviation builder :=
  (retrieve_historical_returns earliest_year download_adj_close resample_ME_last pad).

(** X17: the [KeyError]s of the builder for missing keys. Without a
    list under [tickers] it raises the error about [tickers], even when
    [dataParameters] is missing too; with the list but without
    [dataParameters] it raises the error about [dataParameters]; with a
    parameter object that lacks required keys it raises the error that
    names the first one missing, in the order [sample_time_step],
    [total_sample_period], [sample_period_end]. *)
Theorem builder_key_errors (ETFInfo : gmap string pyval) :
  ((forall l, ETFInfo !! "tickers" <> Some (PyList l)) ->
   builder ETFInfo = Raise (KeyError [Lit "Missing or invalid 'tickers' in JSON file."]))
  /\ (forall l, ETFInfo !! "tickers" = Some (PyList l) ->
        ETFInfo !! "dataParameters" = None ->
        builder ETFInfo = Raise (KeyError [Lit "Missing 'dataParameters' in JSON file."]))
  /\ (forall l d key, ETFInfo !! "tickers" = Some (PyList l) ->
        ETFInfo !! "dataParameters" = Some (PyDict d) ->
        first_missing d = Some key ->
        key ∈ required_keys /\ d !! key = None
        /\ builder ETFInfo = Raise (missing_key_error key)).
Proof.
  split; [|split].
  - intros Hno. unfold retrieve_historical_returns, check_schema.
    destruct (ETFInfo !! "tickers") as [[]|]; try reflexivity.
    by destruct (Hno l).
  - intros l Hl Hd. unfold retrieve_historical_returns, check_schema. by rewrite Hl, Hd.
  - intros l d key Hl Hd Hfm.
    assert (Hs : check_schema ETFInfo = Ok (l, PyDict d))
      by (unfold check_schema; by rewrite Hl, Hd).
    destruct (first_missing_Some d key Hfm) as [Hin Hnone].
    split; [done|]. split; [done|].
    unfold retrieve_historical_returns. rewrite Hs, bind_Ok.
    unfold validate_parameters. rewrite check_required_first_missing, Hfm.
    reflexivity.
Qed.

End BuilderKeyErrors.

Lemma builder_key_errors_witness :
  retrieve_historical_returns (fun _ _ _ => 2019) (fun _ _ _ => sample_prices)
    (fun df => df) true
    (<["tickers" := PyList [PyStr "A"]]> (<["dataParameters" := PyDict ∅]> ∅))
  = Raise (missing_key_error "sample_time_step").
Proof.
  destruct (builder_key_errors (fun _ _ _ => 2019) (fun _ _ _ => sample_prices)
              (fun df => df) true
              (<["tickers" := PyList [PyStr "A"]]> (<["dataParameters" := PyDict ∅]> ∅)))
    as (_ & _ & H).
  apply (H [PyStr "A"] ∅ "sample_time_step"); reflexivity.
Defined.

(** * The table the builder returns, and its availability check *)

Section BuilderTable.

Variable earliest_year : pyval -> string -> string -> Z.
Variable download_adj_close : string -> string -> string -> DataFrame float.
Variable resample_ME_last : DataFrame float -> DataFrame float.
Variable pad : bool.

Local Abbreviation builder :=
  (retrieve_historical_returns earliest_year download_adj_close resample_ME_last pad).

Lemma returns_from_prices_filled_from (data : DataFrame float) :
  filled_from (pct_change pad (resample_ME_last data))
              (returns_from_prices resample_ME_last pad data).
Proof.
  destruct (returns_from_prices_filled resample_ME_last pad data) as (H1 & H2 & H3 & H4 & H5).
  unfold filled_from. split; [exact H1|]. split; [exact H2|]. split; [exact H3|].
  split; [reflexivity|]. split; [exact H4 | exact H5].
Qed.

(** A table the builder returns comes from the prices that the source
    served for the joined tickers. *)
Lemma builder_Ok_download (ETFInfo : gmap string pyval) (returns : DataFrame float) :
  builder ETFInfo = Ok returns ->
  exists (names : list string) (start stop : string),
    returns = returns_from_prices resample_ME_last pad
                (download_adj_close (String.concat " " names) start stop).
Proof.
  unfold retrieve_historical_returns.
  destruct (check_schema ETFInfo) as [[tickers data_params]|]; [|discriminate].
  rewrite bind_Ok.
  destruct (validate_parameters data_params); [|discriminate]. rewrite bind_Ok.
  destruct (py_getitem_str data_params "sample_period_end" ≫= as_str); [|discriminate].
  rewrite bind_Ok.
  destruct (py_getitem_str data_params "total_sample_period" ≫= as_str); [|discriminate].
  rewrite bind_Ok.
  destruct (period_start _ _); [|discriminate]. rewrite bind_Ok.
  destruct (check_availability _ _ _); [|discriminate]. rewrite bind_Ok.
  destruct (ticker_names tickers); [|discriminate]. rewrite bind_Ok.
  intros [= <-]. eauto.
Qed.

(** The builder on a validated document whose period leaves a start
    year of four digits, from the availability check on. *)
Lemma builder_from_availability
    (ETFInfo : gmap string pyval) (tickers : list pyval) (d : gmap string pyval)
    (s t : string) (end_date : Timestamp) (n : Z) :
  check_schema ETFInfo = Ok (tickers, PyDict d) ->
  validate_parameters (PyDict d) = Ok tt ->
  d !! "sample_period_end" = Some (PyStr s) ->
  d !! "total_sample_period" = Some (PyStr t) ->
  strptime s = Some end_date ->
  t ∈ unit_tokens ->
  py_int (str_init t) = Ok n ->
  let start := pretty.pretty (year end_date - n) +:+ str_drop 4 s in
  builder ETFInfo
  = (_ ← check_availability tickers
           (map (fun ticker => earliest_year ticker start s) tickers) start;
     names ← ticker_names tickers;
     Ok (returns_from_prices resample_ME_last pad
           (download_adj_close (String.concat " " names) start s))).
Proof.
  intros Hs Hv He Ht Hp Hu Hn start.
  rewrite (retrieve_historical_returns_stages _ _ _ _ _ _ _ s t Hs He Ht).
  rewrite Hv, bind_Ok.
  destruct (period_start_unit s t end_date Hp Hu) as (n' & Hn' & _ & ->).
  assert (n' = n) as -> by congruence.
  by rewrite bind_Ok.
Qed.

(** C5: every table the builder returns is the percent-change table of
    the month-end prices of the downloaded tickers with each NaN
    replaced by 0: its first row is all 0 (the first percent-change row
    is all NaN), no cell of it is NaN, and every other cell is the
    percent-change cell. On a validated document with a period in years
    or days and tickers that are texts, once the availability check has
    passed, the builder does return such a table. *)
Theorem builder_returns_filled (ETFInfo : gmap string pyval) :
  (forall returns, builder ETFInfo = Ok returns ->
     exists (names : list string) (start stop : string),
       filled_from
         (pct_change pad
            (resample_ME_last (download_adj_close (String.concat " " names) start stop)))
         returns)
  /\ (forall (names : list string) (d : gmap string pyval) (s t : string)
            (end_date : Timestamp) (n : Z),
        check_schema ETFInfo = Ok (map PyStr names, PyDict d) ->
        validate_parameters (PyDict d) = Ok tt ->
        d !! "sample_period_end" = Some (PyStr s) ->
        d !! "total_sample_period" = Some (PyStr t) ->
        strptime s = Some end_date ->
        t ∈ unit_tokens ->
        py_int (str_init t) = Ok n ->
        let start := pretty.pretty (year end_date - n) +:+ str_drop 4 s in
        check_availability (map PyStr names)
          (map (fun ticker => earliest_year ticker start s) (map PyStr names)) start = Ok tt ->
        exists returns,
          builder ETFInfo = Ok returns
          /\ filled_from
               (pct_change pad
                  (resample_ME_last (download_adj_close (String.concat " " names) start s)))
               returns).
Proof.
  split.
  - intros returns Hr.
    destruct (builder_Ok_download _ _ Hr) as (names & start & stop & ->).
    exists names, start, stop. apply returns_from_prices_filled_from.
  - intros names d s t end_date n Hs Hv He Ht Hp Hu Hn start Hav.
    eexists. split; [|apply returns_from_prices_filled_from].
    rewrite (builder_from_availability _ _ _ _ _ _ _ Hs Hv He Ht Hp Hu Hn).
    fold start. rewrite Hav, bind_Ok. by rewrite ticker_names_strings, bind_Ok.
Qed.


End BuilderTable.

Lemma builder_returns_filled_witness :
  exists returns,
    sample_run = Ok returns
    /\ filled_from (pct_change true sample_prices) returns.
Proof.
  unfold sample_run.
  refine (proj2 (builder_returns_filled (fun _ _ _ => 2019) (fun _ _ _ => sample_prices)
                   (fun df => df) true sample_document)
            ["A"; "B"] year_period_parameters "2024-04-01" "5y" (mkTimestamp 2024 4 1) 5
            _ _ _ _ _ _ _ _).
  - vm_compute. reflexivity.
  - vm_compute. reflexivity.
  - vm_compute. reflexivity.
  - vm_compute. reflexivity.
  - reflexivity.
  - unfold unit_tokens. set_solver.
  - reflexivity.
  - reflexivity.
Defined.


